(** * A shallow embedding of [backend/src/policy_recommender.py]

    The recommender ranks insurance policies read from a MongoDB collection
    against a user profile.  Policy documents are schemaless JSON, so they
    are modelled by the Python value type [val]; code that can raise a
    Python exception returns a [result].

    Modelling conventions:
    - Python [int] and [float] numbers are both carried as exact rationals
      ([Q]); the floating-point rounding of [+] and [*] is not modelled.
    - Strings are byte strings ([String.string]); [str.lower] lowers the
      ASCII letters and [str.strip] removes the ASCII bytes for which Python's
      [str.isspace] holds.
    - The sentence-transformer embedding followed by sklearn's cosine
      similarity is the collaborator [similarity], and Python's [str()] of a
      stored value is the collaborator [py_str]; both are section variables,
      so every theorem holds for every choice of them. *)

From Stdlib Require Import ZArith QArith Qabs Lqa String Ascii List Bool Lia Sorted Permutation.
Import ListNotations.
Open Scope string_scope.
Set Warnings "-register-all".

(** ** Python values and exceptions *)

Inductive val : Type :=
| VNull
| VBool (b : bool)
| VNum (q : Q)
| VStr (s : string)
| VList (l : list val)
| VObj (kvs : list (string * val)).

Inductive py_exc : Type :=
| TypeError
| AttributeError
| ValueError.

Inductive result (A : Type) : Type :=
| Ok (a : A)
| Raise (e : py_exc).
Arguments Ok {A} a.
Arguments Raise {A} e.

Definition bind {A B} (m : result A) (k : A -> result B) : result B :=
  match m with
  | Ok a => k a
  | Raise e => Raise e
  end.

Notation "x <- m ;; k" := (bind m (fun x => k))
  (at level 61, m at next level, right associativity).

(** [dict.get(key, default)]: MongoDB documents have unique keys. *)
Fixpoint py_get (kvs : list (string * val)) (key : string) (dflt : val) : val :=
  match kvs with
  | [] => dflt
  | (k, v) :: rest => if String.eqb k key then v else py_get rest key dflt
  end.

(** [key in dict] *)
Definition py_has_key (kvs : list (string * val)) (key : string) : bool :=
  existsb (fun kv => String.eqb (fst kv) key) kvs.

(** Truthiness ([bool(x)]). *)
Definition py_truthy (v : val) : bool :=
  match v with
  | VNull => false
  | VBool b => b
  | VNum q => negb (Qeq_bool q 0)
  | VStr s => negb (String.eqb s "")
  | VList l => negb (Nat.eqb (length l) 0)
  | VObj kvs => negb (Nat.eqb (length kvs) 0)
  end.

(** [for x in v]: lists yield their items, strings their characters, dicts
    their keys; any other value raises [TypeError]. *)
Definition py_iter (v : val) : result (list val) :=
  match v with
  | VList l => Ok l
  | VStr s => Ok (map (fun c => VStr (String c EmptyString)) (list_ascii_of_string s))
  | VObj kvs => Ok (map (fun kv => VStr (fst kv)) kvs)
  | _ => Raise TypeError
  end.

(** Numeric value of a number or a bool (bool is a subclass of int). *)
Definition as_number (v : val) : option Q :=
  match v with
  | VNum q => Some q
  | VBool b => Some (if b then 1 else 0)
  | _ => None
  end.

(** ** String primitives *)

Definition lower_char (c : ascii) : ascii :=
  let n := nat_of_ascii c in
  if (65 <=? n)%nat && (n <=? 90)%nat then ascii_of_nat (n + 32) else c.

(** [str.lower] *)
Fixpoint lower (s : string) : string :=
  match s with
  | EmptyString => EmptyString
  | String c r => String (lower_char c) (lower r)
  end.

(** [sub in s] for strings. *)
Fixpoint py_in (sub s : string) : bool :=
  String.prefix sub s ||
  match s with
  | EmptyString => false
  | String _ r => py_in sub r
  end.

(** Python's [str.isspace] on a single byte. *)
Definition is_py_space (c : ascii) : bool :=
  let n := nat_of_ascii c in
  ((9 <=? n)%nat && (n <=? 13)%nat) || ((28 <=? n)%nat && (n <=? 32)%nat).

Fixpoint drop_spaces (l : list ascii) : list ascii :=
  match l with
  | [] => []
  | c :: r => if is_py_space c then drop_spaces r else l
  end.

(** [str.strip()] *)
Definition strip (s : string) : string :=
  string_of_list_ascii
    (rev (drop_spaces (rev (drop_spaces (list_ascii_of_string s))))).

(** [s.replace(c, '')] for a one-character [c]. *)
Fixpoint remove_char (c : ascii) (s : string) : string :=
  match s with
  | EmptyString => EmptyString
  | String d r => if Ascii.eqb d c then remove_char c r else String d (remove_char c r)
  end.

(** [s.split(c)] for a one-character separator [c]. *)
Fixpoint split_char (c : ascii) (s : string) : list string :=
  match s with
  | EmptyString => [EmptyString]
  | String d r =>
      if Ascii.eqb d c then EmptyString :: split_char c r
      else match split_char c r with
           | [] => [String d EmptyString]
           | p :: ps => String d p :: ps
           end
  end.

(** [sep.join(parts)] *)
Fixpoint join (sep : string) (parts : list string) : string :=
  match parts with
  | [] => EmptyString
  | [p] => p
  | p :: ps => p ++ sep ++ join sep ps
  end.

Definition is_digit (c : ascii) : bool :=
  let n := nat_of_ascii c in (48 <=? n)%nat && (n <=? 57)%nat.

Definition digit_value (c : ascii) : Z := Z.of_nat (nat_of_ascii c) - 48.

(** Digits with single underscores between them, as [int()] accepts;
    [prev_digit] records that the previous character was a digit. *)
Fixpoint parse_digits (s : string) (acc : Z) (prev_digit : bool) : option Z :=
  match s with
  | EmptyString => if prev_digit then Some acc else None
  | String c r =>
      if is_digit c then parse_digits r (acc * 10 + digit_value c) true
      else if Ascii.eqb c "_"%char && prev_digit then parse_digits r acc false
      else None
  end.

(** [int(s)] on a string: surrounding whitespace, an optional sign, decimal
    digits; [None] is the [ValueError] it raises otherwise. *)
Definition py_int (s : string) : option Z :=
  match strip s with
  | String c r =>
      if Ascii.eqb c "-"%char then option_map Z.opp (parse_digits r 0 false)
      else if Ascii.eqb c "+"%char then parse_digits r 0 false
      else parse_digits (String c r) 0 false
  | EmptyString => None
  end.

(** ** [parse_age_bracket] (lines 232-242); [None] stands for the exception
    ([ValueError] from [int]) it raises. *)
Definition parse_age_bracket (age_string : string) : option (Z * Z) :=
  if py_in "+" age_string then
    match py_int (strip (remove_char "+"%char age_string)) with
    | Some min_age => Some (min_age, 999%Z)
    | None => None
    end
  else if py_in "-" age_string then
    let parts := split_char "-"%char age_string in
    match py_int (strip (nth 0 parts EmptyString)),
          py_int (strip (nth 1 parts EmptyString)) with
    | Some lo, Some hi => Some (lo, hi)
    | _, _ => None
    end
  else
    match py_int (strip age_string) with
    | Some age => Some (age, age)
    | None => None
    end.

(** The body of the [try] at lines 293-305: the bracket's [age] value is
    parsed and compared with the user's age; every exception raised there
    (a non-string [age] fails at [in], [.replace] or [.strip]; an
    unparsable one at [int]) is swallowed by the bare [except], so the
    bracket is skipped. *)
Definition bracket_contains (age_str : val) (user_age : Z) : bool :=
  match age_str with
  | VStr s =>
      match parse_age_bracket s with
      | Some (min_age, max_age) => (min_age <=? user_age)%Z && (user_age <=? max_age)%Z
      | None => false
      end
  | _ => false
  end.

(** ** [find_applicable_premium] (lines 244-310) *)

(** The dict built at lines 297-303. *)
Record premium_match : Type := {
  pm_premium_amount : val;
  pm_sum_insured : val;
  pm_zone : val;
  pm_composition : val;
  pm_age_bracket : val
}.

Definition is_dict (v : val) : bool :=
  match v with VObj _ => true | _ => false end.

(** [s.lower()] on a stored value: only strings have the method. *)
Definition py_lower (v : val) : result string :=
  match v with
  | VStr s => Ok (lower s)
  | _ => Raise AttributeError
  end.

(** [v != s] for a string [s]: a value of another type is never equal. *)
Definition py_eq_str (v : val) (s : string) : bool :=
  match v with
  | VStr t => String.eqb t s
  | _ => false
  end.

(** Lines 256-260: the loop over the zone's cities, with its [break]. *)
Fixpoint city_found (user_city : string) (cities : list val) : result bool :=
  match cities with
  | [] => Ok false
  | city :: rest =>
      c <- py_lower city ;;
      if String.eqb c (lower user_city) || py_in (lower user_city) c
      then Ok true
      else city_found user_city rest
  end.

(** Lines 286-305: the loop over age brackets; nothing in it raises. *)
Fixpoint scan_brackets (user_age : Z) (zone_name sum_insured composition : val)
    (age_brackets : list val) : list premium_match :=
  match age_brackets with
  | [] => []
  | VObj bracket :: rest =>
      let age_str := py_get bracket "age" (VStr "") in
      let premium_amount := py_get bracket "premiumAmount" (VNum 0) in
      if bracket_contains age_str user_age then
        {| pm_premium_amount := premium_amount; pm_sum_insured := sum_insured;
           pm_zone := zone_name; pm_composition := composition;
           pm_age_bracket := age_str |}
          :: scan_brackets user_age zone_name sum_insured composition rest
      else scan_brackets user_age zone_name sum_insured composition rest
  | _ :: rest => scan_brackets user_age zone_name sum_insured composition rest
  end.

(** Lines 275-284: the loop over premium options. *)
Fixpoint scan_options (user_age : Z) (policy_category : string)
    (zone_name sum_insured : val) (premium_options : list val)
    : result (list premium_match) :=
  match premium_options with
  | [] => Ok []
  | VObj option :: rest =>
      if negb (py_eq_str (py_get option "type" (VStr "")) policy_category)
      then scan_options user_age policy_category zone_name sum_insured rest
      else
        let composition := py_get option "composition" (VStr "") in
        age_brackets <- py_iter (py_get option "ageBrackets" (VList [])) ;;
        rest_matches <- scan_options user_age policy_category zone_name sum_insured rest ;;
        Ok (scan_brackets user_age zone_name sum_insured composition age_brackets
            ++ rest_matches)%list
  | _ :: rest => scan_options user_age policy_category zone_name sum_insured rest
  end.

(** Lines 268-273: the loop over the premium chart. *)
Fixpoint scan_chart (user_age : Z) (policy_category : string) (zone_name : val)
    (premium_chart : list val) : result (list premium_match) :=
  match premium_chart with
  | [] => Ok []
  | VObj chart_item :: rest =>
      let sum_insured := py_get chart_item "sumInsured" (VNum 0) in
      premium_options <- py_iter (py_get chart_item "premiumOptions" (VList [])) ;;
      ms <- scan_options user_age policy_category zone_name sum_insured premium_options ;;
      rest_matches <- scan_chart user_age policy_category zone_name rest ;;
      Ok (ms ++ rest_matches)%list
  | _ :: rest => scan_chart user_age policy_category zone_name rest
  end.

(** Lines 251-266: the loop over zones. *)
Fixpoint scan_zones (user_age : Z) (user_city policy_category : string)
    (zones : list val) : result (list premium_match) :=
  match zones with
  | [] => Ok []
  | VObj zone_data :: rest =>
      cities <- py_iter (py_get zone_data "cities" (VList [])) ;;
      found <- city_found user_city cities ;;
      if negb found then scan_zones user_age user_city policy_category rest
      else
        let zone_name := py_get zone_data "zoneName" (VStr "Unknown") in
        premium_chart <- py_iter (py_get zone_data "premiumChart" (VList [])) ;;
        ms <- scan_chart user_age policy_category zone_name premium_chart ;;
        rest_matches <- scan_zones user_age user_city policy_category rest ;;
        Ok (ms ++ rest_matches)%list
  | _ :: rest => scan_zones user_age user_city policy_category rest
  end.

(** Lexicographic byte order of strings ([<] on [str]). *)
Fixpoint str_ltb (s t : string) : bool :=
  match s, t with
  | EmptyString, String _ _ => true
  | String c s', String d t' =>
      if Ascii.eqb c d then str_ltb s' t'
      else (nat_of_ascii c <? nat_of_ascii d)%nat
  | _, EmptyString => false
  end.

Definition Qltb (x y : Q) : bool := negb (Qle_bool y x).

(** [a < b] on stored values: numbers (and bools) and strings are ordered
    among themselves; any other pair raises [TypeError] (ordering between two
    lists, which Python also defines, is not modelled). *)
Definition py_lt (a b : val) : result bool :=
  match as_number a, as_number b with
  | Some x, Some y => Ok (Qltb x y)
  | _, _ =>
      match a, b with
      | VStr s, VStr t => Ok (str_ltb s t)
      | _, _ => Raise TypeError
      end
  end.

(** [min(items, key=premium_amount)]: the running minimum is replaced only
    by a strictly smaller key, so the first minimum wins. *)
Fixpoint py_min_from (best : premium_match) (rest : list premium_match)
    : result premium_match :=
  match rest with
  | [] => Ok best
  | m :: ms =>
      lt <- py_lt (pm_premium_amount m) (pm_premium_amount best) ;;
      py_min_from (if lt then m else best) ms
  end.

Definition find_applicable_premium (premiums : val) (user_age : Z)
    (user_city policy_category : string) : result (option premium_match) :=
  if negb (py_truthy premiums) then Ok None
  else match premiums with
       | VList zones =>
           best_matches <- scan_zones user_age user_city policy_category zones ;;
           match best_matches with
           | [] => Ok None
           | m :: ms => best <- py_min_from m ms ;; Ok (Some best)
           end
       | _ => Ok None
       end.

(** ** The premium table of the data model (spec section 3), as typed
    records, and its storage as a document. *)

Record bracket_rec : Type := { br_age : string; br_premiumAmount : Q }.
Record option_rec : Type := {
  op_type : string; op_composition : string; op_ageBrackets : list bracket_rec }.
Record chart_rec : Type := { ch_sumInsured : Q; ch_premiumOptions : list option_rec }.
Record zone_rec : Type := {
  zn_zoneName : string; zn_cities : list string; zn_premiumChart : list chart_rec }.

Definition enc_bracket (b : bracket_rec) : val :=
  VObj [("age", VStr (br_age b)); ("premiumAmount", VNum (br_premiumAmount b))].

Definition enc_option (o : option_rec) : val :=
  VObj [("type", VStr (op_type o)); ("composition", VStr (op_composition o));
        ("ageBrackets", VList (map enc_bracket (op_ageBrackets o)))].

Definition enc_chart (c : chart_rec) : val :=
  VObj [("sumInsured", VNum (ch_sumInsured c));
        ("premiumOptions", VList (map enc_option (ch_premiumOptions c)))].

Definition enc_zone (z : zone_rec) : val :=
  VObj [("zoneName", VStr (zn_zoneName z)); ("cities", VList (map VStr (zn_cities z)));
        ("premiumChart", VList (map enc_chart (zn_premiumChart z)))].

(** The candidates the spec's Premium Resolver describes: for each zone
    listing the requested city (case-insensitively, exactly or as a
    substring), each sum-insured tier, each option of the requested type
    (case-sensitively), each age bracket containing the user's age. *)
Definition city_listed (user_city : string) (cities : list string) : bool :=
  existsb (fun c => String.eqb (lower c) (lower user_city) || py_in (lower user_city) (lower c))
    cities.

Definition spec_match (z : zone_rec) (c : chart_rec) (o : option_rec) (b : bracket_rec)
    : premium_match :=
  {| pm_premium_amount := VNum (br_premiumAmount b); pm_sum_insured := VNum (ch_sumInsured c);
     pm_zone := VStr (zn_zoneName z); pm_composition := VStr (op_composition o);
     pm_age_bracket := VStr (br_age b) |}.

Definition premium_candidates (zones : list zone_rec) (user_age : Z)
    (user_city category : string) : list premium_match :=
  flat_map (fun z =>
    if city_listed user_city (zn_cities z) then
      flat_map (fun c =>
        flat_map (fun o =>
          if String.eqb (op_type o) category then
            flat_map (fun b =>
              if bracket_contains (VStr (br_age b)) user_age then [spec_match z c o b] else [])
              (op_ageBrackets o)
          else [])
          (ch_premiumOptions c))
        (zn_premiumChart z)
    else [])
    zones.

Definition premium_le (m m' : premium_match) : Prop :=
  match as_number (pm_premium_amount m), as_number (pm_premium_amount m') with
  | Some q, Some q' => (q <= q')%Q
  | _, _ => False
  end.

(** ** [keyword_matching] (lines 94-143) *)

Definition keyword_map : list (string * list string) := [
  ("hiv", ["hiv"; "aids"; "hiv/aids"; "std"]);
  ("cancer", ["cancer"; "oncology"; "chemotherapy"; "malignancy"]);
  ("mental", ["mental"; "psychiatric"; "psychology"]);
  ("maternity", ["maternity"; "pregnancy"; "childbirth"; "delivery"]);
  ("hospitalization", ["hospitalization"; "inpatient"; "hospital"]);
  ("critical illness", ["critical illness"; "critical disease"]);
  ("accident", ["accident"; "accidental"; "injury"]);
  ("ambulance", ["ambulance"; "emergency transport"]);
  ("daycare", ["day care"; "daycare"; "day treatment"]);
  ("domiciliary", ["domiciliary"; "home treatment"]);
  ("cashless", ["cashless"; "network hospital"]);
  ("pre hospitalization", ["pre hospitalization"; "pre-hospitalization"]);
  ("post hospitalization", ["post hospitalization"; "post-hospitalization"])
].

(** [any(kw in text for kw in keywords)] *)
Definition any_in (keywords : list string) (text : string) : bool :=
  existsb (fun kw => py_in kw text) keywords.

Record keyword_match : Type := {
  km_matched_features : list string;
  km_keyword_score : nat;
  km_total_keywords : nat;
  km_match_percentage : Q
}.

(** One iteration of the loop at lines 127-134 on
    [(matched_features, keyword_score, total_keywords)]. *)
Definition keyword_step (user_req_lower coverage_text_lower : string)
    (acc : list string * nat * nat) (entry : string * list string)
    : list string * nat * nat :=
  let '(matched_features, keyword_score, total_keywords) := acc in
  let '(category, keywords) := entry in
  if any_in keywords user_req_lower then
    if any_in keywords coverage_text_lower then
      (matched_features ++ [category], S keyword_score, S total_keywords)%list
    else (matched_features, keyword_score, S total_keywords)
  else acc.

Definition keyword_matching (user_requirement coverage_text : string) : keyword_match :=
  let user_req_lower := lower user_requirement in
  let coverage_text_lower := lower coverage_text in
  let '(matched_features, keyword_score, total_keywords) :=
    fold_left (keyword_step user_req_lower coverage_text_lower) keyword_map ([], O, O) in
  {| km_matched_features := matched_features;
     km_keyword_score := keyword_score;
     km_total_keywords := total_keywords;
     km_match_percentage :=
       if (0 <? total_keywords)%nat
       then inject_Z (Z.of_nat keyword_score) / inject_Z (Z.of_nat total_keywords) * 100
       else 0 |}.

(** ** Rounding, sorting and slicing *)

(** Round half to even of a rational to an integer. *)
Definition round_half_even (q : Q) : Z :=
  let f := (Qnum q / Zpos (Qden q))%Z in
  let r := (Qnum q mod Zpos (Qden q))%Z in
  match Z.compare (2 * r) (Zpos (Qden q)) with
  | Lt => f
  | Gt => (f + 1)%Z
  | Eq => if Z.even f then f else (f + 1)%Z
  end.

(** [round(x, 4)] *)
Definition round4 (q : Q) : Q := Qmake (round_half_even (q * 10000)) 10000.

(** [l[:n]] for an [int] [n]: a negative [n] counts from the end. *)
Definition py_slice_to {A} (n : Z) (l : list A) : list A :=
  if (0 <=? n)%Z then firstn (Z.to_nat n) l
  else firstn (Z.to_nat (Z.of_nat (length l) + n)) l.

(** The dict built at lines 379-395. *)
Record recommendation : Type := {
  policy_id : string;
  policy_name : val;
  insurer : val;
  policy_type : val;
  code : val;
  premium : Q;
  sum_insured : val;
  zone : val;
  composition : val;
  age_bracket : val;
  nlp_score : Q;
  keyword_score : Q;
  combined_score : Q;
  matched_features : list string;
  coverage_summary : string
}.

(** The sort key of line 398, [(-combined_score, premium)], compared as a
    tuple: the premiums decide only when the first components are equal. *)
Definition key_lt (a b : recommendation) : bool :=
  if Qeq_bool (- combined_score a) (- combined_score b)
  then Qltb (premium a) (premium b)
  else Qltb (- combined_score a) (- combined_score b).

(** [list.sort] is a stable sort, and the result of a stable sort is
    determined by the key alone; insertion sort computes it.  [x] precedes
    every element of [l] in the input, so it goes before the first element
    whose key is not smaller than its own. *)
Fixpoint insert_rec (x : recommendation) (l : list recommendation) : list recommendation :=
  match l with
  | [] => [x]
  | y :: ys => if key_lt y x then y :: insert_rec x ys else x :: y :: ys
  end.

Fixpoint sort_recs (l : list recommendation) : list recommendation :=
  match l with
  | [] => []
  | x :: xs => insert_rec x (sort_recs xs)
  end.

(** ** MongoDB's [find({"isActive": True})]: a document matches when its
    [isActive] field is [true] or an array containing [true]. *)
Definition mongo_matches_true (v : val) : bool :=
  match v with
  | VBool true => true
  | VList l => existsb (fun x => match x with VBool true => true | _ => false end) l
  | _ => false
  end.

Definition doc := list (string * val).

Definition find_active (store : list doc) : list doc :=
  filter (fun d => mongo_matches_true (py_get d "isActive" VNull)) store.

(** [s.replace(c, d)] for one-character [c] and [d]. *)
Fixpoint replace_char (c d : ascii) (s : string) : string :=
  match s with
  | EmptyString => EmptyString
  | String e r => String (if Ascii.eqb e c then d else e) (replace_char c d r)
  end.

(** [dict(items)]: a repeated key keeps its first position and takes the
    last value. *)
Definition dict_set (d : list (string * val)) (kv : string * val) : list (string * val) :=
  if py_has_key d (fst kv)
  then map (fun kv' => if String.eqb (fst kv') (fst kv) then (fst kv', snd kv) else kv') d
  else (d ++ [kv])%list.

Definition dict_of_items (items : list (string * val)) : list (string * val) :=
  fold_left dict_set items [].

(** [str.join] on stored values: every item must be a string. *)
Fixpoint py_join (sep : string) (vs : list val) : result string :=
  match vs with
  | [] => Ok EmptyString
  | [VStr s] => Ok s
  | VStr s :: rest => r <- py_join sep rest ;; Ok (s ++ sep ++ r)
  | _ :: _ => Raise TypeError
  end.

(** [format(v, ',')]: numbers accept the thousands separator, a string
    raises [ValueError], any other value [TypeError]. *)
Definition py_format_thousands (v : val) : result unit :=
  match v with
  | VNum _ | VBool _ => Ok tt
  | VStr _ => Raise ValueError
  | _ => Raise TypeError
  end.

Definition check_mark : string :=
  String (ascii_of_nat 226) (String (ascii_of_nat 156) (String (ascii_of_nat 147) EmptyString)).
Definition cross_mark : string :=
  String (ascii_of_nat 226) (String (ascii_of_nat 156) (String (ascii_of_nat 151) EmptyString)).

Definition coverage_checks : list (string * list string) := [
  ("HIV/AIDS", ["hiv"; "aids"]);
  ("Cancer", ["cancer"; "oncology"; "chemotherapy"]);
  ("Mental Illness", ["mental"; "psychiatric"]);
  ("Maternity", ["maternity"; "pregnancy"]);
  ("Critical Illness", ["critical illness"]);
  ("Accident", ["accident"; "accidental"]);
  ("Hospitalization", ["hospitalization"; "inpatient"])
].

Definition standard_coverage_text : string :=
  "This policy provides standard health insurance coverage including in-patient hospitalization, pre and post hospitalization expenses, day care procedures, and ambulance services. "
  ++ "However, it may not specifically cover the exact features you mentioned. "
  ++ "Please review the policy details or consider exploring riders and optional add-ons to customize your coverage.".

Definition riders_text : string :=
  "You may explore optional riders and add-ons to enhance your coverage for these features.".

(** The special-coverage and add-on entries selected at lines 69-78: the
    dict entries of a list field whose [flag] is truthy. *)
Definition selected_entries (flag : string) (v : val) : list doc :=
  match v with
  | VList l =>
      flat_map (fun x => match x with
                         | VObj kvs => if py_truthy (py_get kvs flag VNull) then [kvs] else []
                         | _ => []
                         end) l
  | _ => []
  end.

Record coverage_data : Type := {
  cd_text : string;
  cd_features : list string;
  cd_special_coverages : list doc;
  cd_addons : list doc
}.

Section Recommender.

(** Python's [str()] of a stored value, as f-strings and [str.join] use it. *)
Variable py_str : val -> string.
(** [cosine_similarity(model.encode([u]), model.encode([t]))[0][0]]: the
    embedding model and the cosine similarity of the two embeddings. *)
Variable similarity : string -> string -> Q.

(** [flatten_dict(d, parent_key, sep=' ')] (lines 26-42) on a dict [d]. *)
Fixpoint flatten_val (d : val) (parent_key : string) {struct d} : list (string * val) :=
  match d with
  | VObj kvs =>
      dict_of_items
        ((fix items (kvs : list (string * val)) : list (string * val) :=
            match kvs with
            | [] => []
            | (k, v) :: rest =>
                let new_key := if String.eqb parent_key "" then k else parent_key ++ " " ++ k in
                ((match v with
                  | VObj _ => flatten_val v new_key
                  | VList l =>
                      if forallb is_dict l then
                        (fix each (l : list val) : list (string * val) :=
                           match l with
                           | [] => []
                           | item :: r => (flatten_val item new_key ++ each r)%list
                           end) l
                      else [(new_key, VStr (join ", " (map py_str l)))]
                  | _ => [(new_key, v)]
                  end) ++ items rest)%list
            end) kvs)
  | _ => []
  end.

(** [extract_coverage_details] (lines 44-92); the [raw_*] entries of its
    result are never read and are left out. *)
Definition extract_coverage_details (policy : doc) : coverage_data :=
  let features :=
    match py_get policy "coverage" VNull with
    | VObj kvs =>
        map (fun kv => replace_char "_"%char " "%char (fst kv) ++ ": " ++ py_str (snd kv))
          (flatten_val (VObj kvs) "")
    | _ => []
    end in
  let special_coverages := selected_entries "isCovered" (py_get policy "specialCoverages" VNull) in
  let addons := selected_entries "isAvailable" (py_get policy "addOns_OptionalBenefits" VNull) in
  let all_text :=
    app features
      (app (map (fun sc => py_str (py_get sc "diseaseName" (VStr "")) ++ " "
                           ++ py_str (py_get sc "details" (VStr "")) ++ " "
                           ++ py_str (py_get sc "limit" (VStr ""))) special_coverages)
           (map (fun a => py_str (py_get a "name" (VStr "")) ++ " "
                          ++ py_str (py_get a "details" (VStr ""))) addons)) in
  {| cd_text := join " " all_text;
     cd_features := features;
     cd_special_coverages := special_coverages;
     cd_addons := addons |}.

(** Lines 181-188: the [limit] of the first special coverage whose name
    mentions a keyword, when truthy. *)
Fixpoint find_details (keywords : list string) (specials : list doc) : result (option val) :=
  match specials with
  | [] => Ok None
  | sc :: rest =>
      sc_name <- py_lower (py_get sc "diseaseName" (VStr "")) ;;
      if any_in keywords sc_name then
        let limit := py_get sc "limit" (VStr "") in
        Ok (if py_truthy limit then Some limit else None)
      else find_details keywords rest
  end.

(** Lines 175-195: [(coverage_responses, not_covered)]. *)
Fixpoint summary_checks (user_req_lower coverage_text_lower : string) (specials : list doc)
    (checks : list (string * list string)) : result (list string * list string) :=
  match checks with
  | [] => Ok ([], [])
  | (coverage_name, keywords) :: rest =>
      if any_in keywords user_req_lower then
        if any_in keywords coverage_text_lower then
          details <- find_details keywords specials ;;
          let response :=
            match details with
            | Some d => check_mark ++ " Yes, " ++ coverage_name ++ " is covered (" ++ py_str d ++ ")"
            | None => check_mark ++ " Yes, " ++ coverage_name ++ " is covered"
            end in
          p <- summary_checks user_req_lower coverage_text_lower specials rest ;;
          Ok (response :: fst p, snd p)
        else
          p <- summary_checks user_req_lower coverage_text_lower specials rest ;;
          Ok (fst p, coverage_name :: snd p)
      else summary_checks user_req_lower coverage_text_lower specials rest
  end.

(** [generate_coverage_summary] (lines 145-230). *)
Definition generate_coverage_summary (user_requirement : string) (cd : coverage_data)
    : result string :=
  p <- summary_checks (lower user_requirement) (lower (cd_text cd))
         (cd_special_coverages cd) coverage_checks ;;
  let '(coverage_responses, not_covered) := p in
  match coverage_responses, not_covered with
  | [], [] => Ok standard_coverage_text
  | _, _ =>
      let covered_part :=
        match coverage_responses with
        | [] => ""
        | [r] => r ++ ". "
        | [r1; r2] => r1 ++ " " ++ r2 ++ ". "
        | _ => join " " (firstn 3 coverage_responses) ++ ". "
        end in
      let not_covered_part :=
        match not_covered with
        | [] => ""
        | [n] => cross_mark ++ " However, " ++ n ++ " is not covered under the base policy. "
                 ++ riders_text
        | _ => cross_mark ++ " However, " ++ join ", " (removelast not_covered) ++ " and "
               ++ last not_covered "" ++ " are not covered under the base policy. "
               ++ riders_text
        end in
      match cd_addons cd with
      | [] => Ok (covered_part ++ not_covered_part)
      | addons =>
          joined <- py_join ", " (map (fun a => py_get a "name" (VStr "")) (firstn 2 addons)) ;;
          Ok (covered_part ++ not_covered_part ++ " Available add-ons include " ++ joined ++ ".")
      end
  end.

(** Lines 379-395. *)
Definition make_recommendation (policy : doc) (info : premium_match) (prem : Q)
    (nlp : Q) (km : keyword_match) (combined : Q) (summary : string) : recommendation :=
  {| policy_id := py_str (py_get policy "_id" (VStr "N/A"));
     policy_name := py_get policy "policyName" (VStr "Unknown");
     insurer := py_get policy "insurer" (VStr "Unknown");
     policy_type := py_get policy "policyType" (VStr "N/A");
     code := py_get policy "code" (VStr "N/A");
     premium := prem;
     sum_insured := pm_sum_insured info;
     zone := pm_zone info;
     composition := pm_composition info;
     age_bracket := pm_age_bracket info;
     nlp_score := round4 nlp;
     keyword_score := km_match_percentage km;
     combined_score := round4 combined;
     matched_features := km_matched_features km;
     coverage_summary := summary |}.

(** One iteration of the scoring loop (lines 359-395); [prem] is the
    numeric value of the resolved [premium_amount]. *)
Definition score_policy (user_coverage_requirement : string) (policy : doc)
    (info : premium_match) (prem : Q) : result recommendation :=
  let coverage_data := extract_coverage_details policy in
  let nlp := similarity user_coverage_requirement (cd_text coverage_data) in
  let km := keyword_matching user_coverage_requirement (cd_text coverage_data) in
  let combined := km_match_percentage km * (7 # 1000) + nlp * (3 # 10) in
  summary <- generate_coverage_summary user_coverage_requirement coverage_data ;;
  Ok (make_recommendation policy info prem nlp km combined summary).

Fixpoint score_all (user_coverage_requirement : string)
    (filtered : list (doc * premium_match * Q)) : result (list recommendation) :=
  match filtered with
  | [] => Ok []
  | (policy, info, prem) :: rest =>
      r <- score_policy user_coverage_requirement policy info prem ;;
      rs <- score_all user_coverage_requirement rest ;;
      Ok (r :: rs)
  end.

(** Lines 333-345: a policy is kept with its resolved premium when that
    premium is within budget; [premium_amount <= user_budget] raises
    [TypeError] on a non-numeric amount. *)
Fixpoint filter_policies (user_age : Z) (user_budget : Q) (user_city policy_category : string)
    (policies : list doc) : result (list (doc * premium_match * Q)) :=
  match policies with
  | [] => Ok []
  | policy :: rest =>
      info <- find_applicable_premium (py_get policy "premiums" (VList []))
                user_age user_city policy_category ;;
      match info with
      | None => filter_policies user_age user_budget user_city policy_category rest
      | Some m =>
          match as_number (pm_premium_amount m) with
          | None => Raise TypeError
          | Some q =>
              kept <- filter_policies user_age user_budget user_city policy_category rest ;;
              Ok (if Qle_bool q user_budget then (policy, m, q) :: kept else kept)
          end
      end
  end.

(** [_display_recommendations] (lines 406-421): only the [:,] format of
    the premium and of the sum insured can raise. *)
Fixpoint display_recommendations (recs : list recommendation) : result unit :=
  match recs with
  | [] => Ok tt
  | r :: rest =>
      _ <- py_format_thousands (VNum (premium r)) ;;
      _ <- py_format_thousands (sum_insured r) ;;
      display_recommendations rest
  end.

(** [get_recommendations] (lines 312-404); [store] lists the collection's
    documents in cursor order. *)
Definition get_recommendations (store : list doc) (user_age : Z) (user_budget : Q)
    (user_city policy_category user_coverage_requirement : string) (top_n : Z)
    : result (list recommendation) :=
  let active_policies := find_active store in
  match active_policies with
  | [] => Ok []
  | _ =>
      filtered_policies <- filter_policies user_age user_budget user_city policy_category
                             active_policies ;;
      match filtered_policies with
      | [] => Ok []
      | _ =>
          recommendations <- score_all user_coverage_requirement filtered_policies ;;
          let top_recommendations := py_slice_to top_n (sort_recs recommendations) in
          _ <- display_recommendations top_recommendations ;;
          Ok top_recommendations
      end
  end.

(** The scored candidates, before sorting: [[]] on the early returns. *)
Definition scored_candidates (store : list doc) (user_age : Z) (user_budget : Q)
    (user_city policy_category user_coverage_requirement : string)
    : result (list recommendation) :=
  filtered <- filter_policies user_age user_budget user_city policy_category
                (find_active store) ;;
  score_all user_coverage_requirement filtered.

End Recommender.

(** ** Specification-side notions *)

(** A decimal numeral: a non-empty string of ASCII digits, and its value. *)
Definition is_numeral (s : string) : Prop :=
  s <> EmptyString /\ forallb is_digit (list_ascii_of_string s) = true.

Definition numeral_value (s : string) : Z :=
  fold_left (fun acc c => acc * 10 + digit_value c)%Z (list_ascii_of_string s) 0%Z.

(** The keyword categories the user text asks for, and those also found in
    the policy text. *)
Definition requested_categories (user_requirement : string) : list (string * list string) :=
  filter (fun e => any_in (snd e) (lower user_requirement)) keyword_map.

Definition matched_categories (user_requirement coverage_text : string)
    : list (string * list string) :=
  filter (fun e => any_in (snd e) (lower user_requirement)
                   && any_in (snd e) (lower coverage_text)) keyword_map.

(** The order of spec section 8 on adjacent entries. *)
Definition ordered_pair (x y : recommendation) : Prop :=
  (combined_score y < combined_score x)%Q
  \/ (combined_score x == combined_score y /\ premium x <= premium y)%Q.

Fixpoint adjacent_ordered (l : list recommendation) : Prop :=
  match l with
  | x :: (y :: _) as rest => ordered_pair x y /\ adjacent_ordered rest
  | _ => True
  end.

(** The combined score of line 366 before [round(..., 4)]. *)
Definition exact_combined (py_str : val -> string) (similarity : string -> string -> Q)
    (user_coverage_requirement : string) (policy : doc) : Q :=
  let text := cd_text (extract_coverage_details py_str policy) in
  km_match_percentage (keyword_matching user_coverage_requirement text) * (7 # 1000)
  + similarity user_coverage_requirement text * (3 # 10).

(** ** Sample inputs *)

(** A rendering of stored values used in the sample runs. *)
Definition sample_str (v : val) : string :=
  match v with VStr s => s | VBool true => "True" | VBool false => "False" | _ => "" end.

Definition sample_zone : zone_rec :=
  {| zn_zoneName := "Zone A"; zn_cities := ["Mumbai"; "Pune"];
     zn_premiumChart :=
       [{| ch_sumInsured := 500000;
           ch_premiumOptions :=
             [{| op_type := "Individual"; op_composition := "1 Adult";
                 op_ageBrackets := [{| br_age := "18-35"; br_premiumAmount := 8000 |};
                                    {| br_age := "36+"; br_premiumAmount := 12000 |}] |}] |}] |}.

Definition sample_policy (id : string) (coverage_text : string) (amount : Q) : doc :=
  [("_id", VStr id); ("isActive", VBool true);
   ("coverage", VObj [("benefit", VStr coverage_text)]);
   ("premiums", VList [enc_zone
      {| zn_zoneName := "Zone A"; zn_cities := ["Mumbai"];
         zn_premiumChart :=
           [{| ch_sumInsured := 500000;
               ch_premiumOptions :=
                 [{| op_type := "Individual"; op_composition := "1 Adult";
                     op_ageBrackets := [{| br_age := "18-35"; br_premiumAmount := amount |}] |}] |}] |}])].

(** A similarity giving the two sample texts scores 0.3 apart in the
    fifth decimal once weighted by 0.3. *)
Definition sample_similarity (u t : string) : Q :=
  if String.eqb t "benefit: alpha" then 12344 # 30000 else 12346 # 30000.

(** A zone whose [cities] field is stored as null. *)
Definition null_cities_policy : doc :=
  [("_id", VStr "bad"); ("isActive", VBool true);
   ("premiums", VList [VObj [("zoneName", VStr "Zone B"); ("cities", VNull);
                             ("premiumChart", VList [])]])].

Definition null_premiums_policy : doc :=
  [("_id", VStr "nullp"); ("isActive", VBool true); ("premiums", VNull)].

(** A policy switched off, priced within every sample budget. *)
Definition inactive_policy : doc :=
  [("_id", VStr "off"); ("isActive", VBool false);
   ("premiums", VList [enc_zone sample_zone])].

Definition plain_policy : doc :=
  [("_id", VStr "good"); ("isActive", VBool true);
   ("premiums", VList [enc_zone sample_zone])].

(** Values that [flatten_dict] keeps as they are, and list values. *)
Definition is_scalar (v : val) : bool :=
  match v with VObj _ | VList _ => false | _ => true end.

Definition is_list (v : val) : bool :=
  match v with VList _ => true | _ => false end.


(** A string of whitespace only, as [str.strip] removes it. *)
Definition is_blank (s : string) : bool := forallb is_py_space (list_ascii_of_string s).

(** ** [convert_numpy_types] (routes/recommender.py, lines 24-35)

    The route hands the recommendations to [convert_numpy_types] before
    returning them as JSON.  Its input may hold NumPy values beside the
    native ones: scalars ([np.generic], whose [item()] is the native
    scalar of the same value) and arrays ([np.ndarray], nested rows whose
    [tolist()] is the nested list of the [item()]s of its elements, and a
    0-d array is its element). *)
Inductive np_scalar : Type :=
| GNum (q : Q)
| GBool (b : bool)
| GStr (s : string).

Inductive ndarray : Type :=
| ALeaf (x : np_scalar)
| ANode (rows : list ndarray).

Inductive pyobj : Type :=
| PNull
| PBool (b : bool)
| PNum (q : Q)
| PStr (s : string)
| PList (xs : list pyobj)
| PDict (kvs : list (string * pyobj))
| PGeneric (x : np_scalar)
| PArray (a : ndarray).

(** [np.generic.item()]. *)
Definition item (x : np_scalar) : pyobj :=
  match x with
  | GNum q => PNum q
  | GBool b => PBool b
  | GStr s => PStr s
  end.

(** [np.ndarray.tolist()]. *)
Fixpoint tolist (a : ndarray) : pyobj :=
  match a with
  | ALeaf x => item x
  | ANode rows => PList (map tolist rows)
  end.

Fixpoint convert_numpy_types (obj : pyobj) : pyobj :=
  match obj with
  | PArray a => tolist a
  | PGeneric x => item x
  | PDict kvs => PDict (map (fun kv => (fst kv, convert_numpy_types (snd kv))) kvs)
  | PList xs => PList (map convert_numpy_types xs)
  | _ => obj
  end.

(** A value with no NumPy scalar or array anywhere inside it. *)
Fixpoint numpy_free (obj : pyobj) : bool :=
  match obj with
  | PArray _ | PGeneric _ => false
  | PList xs => forallb numpy_free xs
  | PDict kvs => forallb (fun kv => numpy_free (snd kv)) kvs
  | _ => true
  end.

(** * Properties *)

(** ** Strings and age brackets *)

Lemma prefix_refl (s : string) : String.prefix s s = true.
Proof.
  induction s as [|c s IH]; simpl; [reflexivity|].
  destruct (ascii_dec c c); [exact IH | congruence].
Qed.

Lemma py_in_eq (sub s : string) :
  py_in sub s = String.prefix sub s ||
                match s with EmptyString => false | String _ r => py_in sub r end.
Proof. destruct s; reflexivity. Qed.

Lemma py_in_prefix (sub s : string) : String.prefix sub s = true -> py_in sub s = true.
Proof. intros H. rewrite py_in_eq, H. reflexivity. Qed.

Lemma py_in_app_r (sub a : string) : py_in sub (a ++ sub) = true.
Proof.
  induction a as [|c a IH].
  - apply py_in_prefix, prefix_refl.
  - simpl. rewrite IH. apply orb_true_r.
Qed.

Lemma py_in_char_absent (c : ascii) (s : string) :
  forallb (fun d => negb (Ascii.eqb d c)) (list_ascii_of_string s) = true ->
  py_in (String c EmptyString) s = false.
Proof.
  induction s as [|d s IH]; simpl; [reflexivity|].
  intros H. apply andb_true_iff in H as [Hd Hs].
  rewrite (IH Hs), orb_false_r.
  destruct (ascii_dec c d) as [->|]; [|reflexivity].
  rewrite Ascii.eqb_refl in Hd. discriminate.
Qed.

Lemma digit_not_space (c : ascii) : is_digit c = true -> is_py_space c = false.
Proof.
  unfold is_digit, is_py_space. intros H.
  apply andb_true_iff in H as [H1 H2].
  apply Nat.leb_le in H1. apply Nat.leb_le in H2.
  destruct (Nat.leb_spec 9 (nat_of_ascii c)), (Nat.leb_spec (nat_of_ascii c) 13),
           (Nat.leb_spec 28 (nat_of_ascii c)), (Nat.leb_spec (nat_of_ascii c) 32);
    simpl; try reflexivity; lia.
Qed.

Lemma digit_not_char (c d : ascii) :
  is_digit c = true -> is_digit d = false -> Ascii.eqb c d = false.
Proof.
  intros Hc Hd. destruct (Ascii.eqb_spec c d); [subst; congruence | reflexivity].
Qed.

Lemma drop_spaces_digits (l : list ascii) :
  forallb is_digit l = true -> drop_spaces l = l.
Proof.
  destruct l as [|c l]; simpl; [reflexivity|].
  intros H. apply andb_true_iff in H as [H _]. rewrite (digit_not_space c H). reflexivity.
Qed.

Lemma forallb_rev {A} (f : A -> bool) (l : list A) : forallb f (rev l) = forallb f l.
Proof.
  induction l as [|x l IH]; simpl; [reflexivity|].
  rewrite forallb_app, IH. simpl. rewrite andb_true_r, andb_comm. reflexivity.
Qed.

Lemma strip_digits (s : string) :
  forallb is_digit (list_ascii_of_string s) = true -> strip s = s.
Proof.
  intros H. unfold strip.
  rewrite (drop_spaces_digits _ H).
  rewrite drop_spaces_digits by (rewrite forallb_rev; exact H).
  rewrite rev_involutive. apply string_of_list_ascii_of_string.
Qed.

Lemma parse_digits_all (s : string) (acc : Z) :
  forallb is_digit (list_ascii_of_string s) = true ->
  parse_digits s acc true =
  Some (fold_left (fun acc c => acc * 10 + digit_value c)%Z (list_ascii_of_string s) acc).
Proof.
  revert acc. induction s as [|c s IH]; intros acc H; simpl; [reflexivity|].
  simpl in H. apply andb_true_iff in H as [Hc Hs]. rewrite Hc. apply IH, Hs.
Qed.

Lemma py_int_numeral (s : string) : is_numeral s -> py_int s = Some (numeral_value s).
Proof.
  intros [Hne H]. unfold py_int. rewrite (strip_digits s H).
  destruct s as [|c r]; [congruence|].
  simpl in H. apply andb_true_iff in H as [Hc Hr].
  rewrite (digit_not_char c "-" Hc eq_refl), (digit_not_char c "+" Hc eq_refl).
  simpl. rewrite Hc. unfold numeral_value. simpl. apply parse_digits_all, Hr.
Qed.

Lemma list_ascii_app (a b : string) :
  list_ascii_of_string (a ++ b) = (list_ascii_of_string a ++ list_ascii_of_string b)%list.
Proof. induction a as [|c a IH]; simpl; [reflexivity|]. rewrite IH. reflexivity. Qed.

Lemma digits_avoid (c : ascii) (s : string) :
  is_digit c = false -> forallb is_digit (list_ascii_of_string s) = true ->
  forallb (fun d => negb (Ascii.eqb d c)) (list_ascii_of_string s) = true.
Proof.
  intros Hc. induction s as [|d s IH]; simpl; [reflexivity|].
  intros H. apply andb_true_iff in H as [Hd Hs].
  rewrite (digit_not_char d c Hd Hc), (IH Hs). reflexivity.
Qed.

Lemma remove_char_absent (c : ascii) (s : string) :
  forallb (fun d => negb (Ascii.eqb d c)) (list_ascii_of_string s) = true ->
  remove_char c s = s.
Proof.
  induction s as [|d s IH]; simpl; [reflexivity|].
  intros H. apply andb_true_iff in H as [Hd Hs].
  destruct (Ascii.eqb d c); [discriminate|]. rewrite (IH Hs). reflexivity.
Qed.

Lemma remove_char_app (c : ascii) (a b : string) :
  remove_char c (a ++ b) = remove_char c a ++ remove_char c b.
Proof.
  induction a as [|d a IH]; simpl; [reflexivity|].
  rewrite IH. destruct (Ascii.eqb d c); reflexivity.
Qed.

Lemma split_char_absent (c : ascii) (s : string) :
  forallb (fun d => negb (Ascii.eqb d c)) (list_ascii_of_string s) = true ->
  split_char c s = [s].
Proof.
  induction s as [|d s IH]; simpl; [reflexivity|].
  intros H. apply andb_true_iff in H as [Hd Hs].
  destruct (Ascii.eqb d c); [discriminate|]. rewrite (IH Hs). reflexivity.
Qed.

Lemma split_char_two (c : ascii) (a b : string) :
  forallb (fun d => negb (Ascii.eqb d c)) (list_ascii_of_string a) = true ->
  forallb (fun d => negb (Ascii.eqb d c)) (list_ascii_of_string b) = true ->
  split_char c (a ++ String c b) = [a; b].
Proof.
  intros Ha Hb. induction a as [|d a IH]; simpl.
  - rewrite Ascii.eqb_refl, (split_char_absent c b Hb). reflexivity.
  - simpl in Ha. apply andb_true_iff in Ha as [Hd Ha].
    destruct (Ascii.eqb d c); [discriminate|]. rewrite (IH Ha). reflexivity.
Qed.

Lemma string_app_nil (s : string) : s ++ "" = s.
Proof. induction s as [|c s IH]; simpl; [reflexivity|]. rewrite IH. reflexivity. Qed.

Lemma prefix_app (sub t : string) : String.prefix sub (sub ++ t) = true.
Proof.
  induction sub as [|c sub IH]; simpl; [destruct t; reflexivity|].
  destruct (ascii_dec c c); [exact IH | congruence].
Qed.

Lemma py_in_app_mono (sub x s : string) : py_in sub s = true -> py_in sub (x ++ s) = true.
Proof.
  intros H. induction x as [|c x IH]; [exact H|].
  simpl. rewrite IH. apply orb_true_r.
Qed.

Lemma numeral_avoid (c : ascii) (s : string) :
  is_digit c = false -> is_numeral s ->
  forallb (fun d => negb (Ascii.eqb d c)) (list_ascii_of_string s) = true.
Proof. intros Hc [_ H]. exact (digits_avoid c s Hc H). Qed.

Lemma numeral_strip (s : string) : is_numeral s -> strip s = s.
Proof. intros [_ H]. exact (strip_digits s H). Qed.

Lemma parse_plus_form (n : string) :
  is_numeral n -> parse_age_bracket (n ++ "+") = Some (numeral_value n, 999%Z).
Proof.
  intros Hn. unfold parse_age_bracket.
  rewrite py_in_app_r, remove_char_app.
  rewrite (remove_char_absent "+" n (numeral_avoid "+" n eq_refl Hn)). simpl.
  rewrite string_app_nil, (numeral_strip n Hn), (py_int_numeral n Hn). reflexivity.
Qed.

Lemma parse_dash_form (a b : string) :
  is_numeral a -> is_numeral b ->
  parse_age_bracket (a ++ "-" ++ b) = Some (numeral_value a, numeral_value b).
Proof.
  intros Ha Hb. unfold parse_age_bracket.
  rewrite py_in_char_absent.
  2:{ rewrite list_ascii_app, forallb_app. simpl.
      rewrite (numeral_avoid "+" a eq_refl Ha), (numeral_avoid "+" b eq_refl Hb). reflexivity. }
  rewrite py_in_app_mono by (apply py_in_prefix, prefix_app).
  change ("-" ++ b) with (String "-"%char b).
  rewrite (split_char_two "-" a b (numeral_avoid "-" a eq_refl Ha) (numeral_avoid "-" b eq_refl Hb)).
  simpl nth. rewrite (numeral_strip a Ha), (numeral_strip b Hb).
  rewrite (py_int_numeral a Ha), (py_int_numeral b Hb). reflexivity.
Qed.

Lemma parse_single_form (n : string) :
  is_numeral n -> parse_age_bracket n = Some (numeral_value n, numeral_value n).
Proof.
  intros Hn. unfold parse_age_bracket.
  rewrite (py_in_char_absent "+" n (numeral_avoid "+" n eq_refl Hn)).
  rewrite (py_in_char_absent "-" n (numeral_avoid "-" n eq_refl Hn)).
  rewrite (numeral_strip n Hn), (py_int_numeral n Hn). reflexivity.
Qed.

Lemma range_check (lo hi age : Z) :
  ((lo <=? age) && (age <=? hi))%Z = true <-> (lo <= age <= hi)%Z.
Proof. rewrite andb_true_iff, Z.leb_le, Z.leb_le. reflexivity. Qed.

(** C3 (amended): a bracket ["N+"] matches the ages from [N] through 999,
    the cap [parse_age_bracket] puts on an open bracket; ["A-B"] matches the
    ages from [A] through [B] inclusive; ["N"] matches the age [N] only. *)
Theorem age_bracket_forms (n a b : string) (age : Z)
    (Hn : is_numeral n) (Ha : is_numeral a) (Hb : is_numeral b) :
  (bracket_contains (VStr (n ++ "+")) age = true <-> (numeral_value n <= age <= 999)%Z)
  /\ (bracket_contains (VStr (a ++ "-" ++ b)) age = true
      <-> (numeral_value a <= age <= numeral_value b)%Z)
  /\ (bracket_contains (VStr n) age = true <-> age = numeral_value n).
Proof.
  unfold bracket_contains.
  rewrite (parse_plus_form n Hn), (parse_dash_form a b Ha Hb), (parse_single_form n Hn).
  rewrite !range_check. repeat split; lia.
Qed.

Lemma age_bracket_forms_witness :
  is_numeral "18" /\ is_numeral "35" /\
  (bracket_contains (VStr ("65" ++ "+")) 70 = true <-> (numeral_value "65" <= 70 <= 999)%Z).
Proof.
  assert (H18 : is_numeral "18") by (split; [discriminate | reflexivity]).
  assert (H35 : is_numeral "35") by (split; [discriminate | reflexivity]).
  assert (H65 : is_numeral "65") by (split; [discriminate | reflexivity]).
  split; [exact H18|]. split; [exact H35|].
  exact (proj1 (age_bracket_forms "65" "18" "35" 70 H65 H18 H35)).
Defined.

(** C3 counterexample: age 1000 is at least 65 but the bracket ["65+"] does
    not match it. *)
Lemma age_plus_bracket_capped :
  (65 <= 1000)%Z /\ bracket_contains (VStr "65+") 1000 = false.
Proof. split; [lia | reflexivity]. Qed.

(** ** Keyword score *)

Lemma fold_keyword_step (ul tl : string) (l : list (string * list string))
    (m : list string) (s t : nat) :
  fold_left (keyword_step ul tl) l (m, s, t) =
  ((m ++ map fst (filter (fun e => any_in (snd e) ul && any_in (snd e) tl) l))%list,
   (s + length (filter (fun e => any_in (snd e) ul && any_in (snd e) tl) l))%nat,
   (t + length (filter (fun e => any_in (snd e) ul) l))%nat).
Proof.
  revert m s t. induction l as [|[cat kws] l IH]; intros m s t; simpl.
  - rewrite app_nil_r, !Nat.add_0_r. reflexivity.
  - destruct (any_in kws ul) eqn:Hu; simpl.
    + destruct (any_in kws tl) eqn:Ht; simpl; rewrite IH.
      * rewrite <- app_assoc. f_equal; [f_equal|]; lia.
      * f_equal. lia.
    + apply IH.
Qed.

Lemma filter_and_length {A} (f g : A -> bool) (l : list A) :
  (length (filter (fun x => f x && g x) l) <= length (filter f l))%nat.
Proof.
  induction l as [|x l IH]; simpl; [lia|].
  destruct (f x), (g x); simpl; lia.
Qed.

Lemma percentage_bounds (m r : nat) :
  (m <= r)%nat -> (0 < r)%nat ->
  0 <= inject_Z (Z.of_nat m) / inject_Z (Z.of_nat r) * 100 <= 100.
Proof.
  intros Hmr Hr.
  assert (Hr' : inject_Z 0 < inject_Z (Z.of_nat r)) by (rewrite <- Zlt_Qlt; lia).
  assert (Hm' : inject_Z 0 <= inject_Z (Z.of_nat m)) by (rewrite <- Zle_Qle; lia).
  assert (Hmr' : inject_Z (Z.of_nat m) <= inject_Z (Z.of_nat r)) by (rewrite <- Zle_Qle; lia).
  split.
  - apply Qmult_le_0_compat; [|discriminate].
    apply Qle_shift_div_l; [exact Hr'|]. rewrite Qmult_0_l. exact Hm'.
  - setoid_replace 100 with (1 * 100) at 2 by reflexivity.
    apply Qmult_le_compat_r; [|discriminate].
    apply Qle_shift_div_r; [exact Hr'|]. rewrite Qmult_1_l. exact Hmr'.
Qed.

(** C5: the keyword score is the number of recognised categories found in
    both texts over the number found in the user text, times 100; it is 0
    when the user text triggers no category, and it lies in [0, 100]. *)
Theorem keyword_score_ratio (user_requirement coverage_text : string) :
  km_match_percentage (keyword_matching user_requirement coverage_text) =
    (if (0 <? length (requested_categories user_requirement))%nat
     then inject_Z (Z.of_nat (length (matched_categories user_requirement coverage_text)))
          / inject_Z (Z.of_nat (length (requested_categories user_requirement))) * 100
     else 0)
  /\ (length (requested_categories user_requirement) = O ->
      km_match_percentage (keyword_matching user_requirement coverage_text) = 0)
  /\ 0 <= km_match_percentage (keyword_matching user_requirement coverage_text) <= 100
  /\ km_matched_features (keyword_matching user_requirement coverage_text)
     = map fst (matched_categories user_requirement coverage_text).
Proof.
  unfold keyword_matching, requested_categories, matched_categories.
  rewrite fold_keyword_step.
  set (mat := length (filter _ keyword_map)).
  set (req := length (filter _ keyword_map)).
  cbv beta iota zeta. cbn [km_match_percentage km_matched_features app plus].
  assert (Hle : (mat <= req)%nat) by apply filter_and_length.
  split; [reflexivity|]. split.
  { intros H0. rewrite H0. reflexivity. }
  split; [|reflexivity].
  destruct (Nat.ltb_spec 0 req) as [Hpos|Hz].
  - apply percentage_bounds; assumption.
  - split; apply Qle_refl || discriminate.
Qed.

(** ** Premium resolver on a schema-conforming table *)

Lemma city_found_enc (user_city : string) (cities : list string) :
  city_found user_city (map VStr cities) = Ok (city_listed user_city cities).
Proof.
  induction cities as [|c cs IH]; [reflexivity|].
  cbn [map city_found py_lower bind]. unfold city_listed. cbn [existsb].
  destruct (String.eqb (lower c) (lower user_city) || py_in (lower user_city) (lower c));
    [reflexivity | exact IH].
Qed.

Lemma scan_brackets_enc (user_age : Z) (z : zone_rec) (c : chart_rec) (o : option_rec)
    (bs : list bracket_rec) :
  scan_brackets user_age (VStr (zn_zoneName z)) (VNum (ch_sumInsured c))
    (VStr (op_composition o)) (map enc_bracket bs) =
  flat_map (fun b => if bracket_contains (VStr (br_age b)) user_age
                     then [spec_match z c o b] else []) bs.
Proof.
  induction bs as [|b bs IH]; [reflexivity|].
  cbn [map scan_brackets flat_map]. set (rest := map enc_bracket bs) in *.
  unfold enc_bracket. cbn [py_get].
  change (String.eqb "age" "age") with true.
  change (String.eqb "age" "premiumAmount") with false.
  change (String.eqb "premiumAmount" "premiumAmount") with true. cbv iota.
  destruct (bracket_contains (VStr (br_age b)) user_age); cbn [app]; rewrite IH; reflexivity.
Qed.

Lemma scan_options_enc (user_age : Z) (category : string) (z : zone_rec) (c : chart_rec)
    (os : list option_rec) :
  scan_options user_age category (VStr (zn_zoneName z)) (VNum (ch_sumInsured c))
    (map enc_option os) =
  Ok (flat_map (fun o =>
        if String.eqb (op_type o) category then
          flat_map (fun b => if bracket_contains (VStr (br_age b)) user_age
                             then [spec_match z c o b] else []) (op_ageBrackets o)
        else []) os).
Proof.
  induction os as [|o os IH]; [reflexivity|].
  cbn [map scan_options flat_map]. set (rest := map enc_option os) in *.
  unfold enc_option. simpl py_get. cbn [py_eq_str].
  destruct (String.eqb (op_type o) category); cbn [negb].
  - cbn [py_iter bind]. rewrite IH. cbn [bind].
    rewrite scan_brackets_enc. reflexivity.
  - exact IH.
Qed.

Lemma scan_chart_enc (user_age : Z) (category : string) (z : zone_rec) (cs : list chart_rec) :
  scan_chart user_age category (VStr (zn_zoneName z)) (map enc_chart cs) =
  Ok (flat_map (fun c =>
        flat_map (fun o =>
          if String.eqb (op_type o) category then
            flat_map (fun b => if bracket_contains (VStr (br_age b)) user_age
                               then [spec_match z c o b] else []) (op_ageBrackets o)
          else []) (ch_premiumOptions c)) cs).
Proof.
  induction cs as [|c cs IH]; [reflexivity|].
  cbn [map scan_chart flat_map]. set (rest := map enc_chart cs) in *.
  unfold enc_chart. simpl py_get. cbn [py_iter bind].
  rewrite scan_options_enc. cbn [bind]. rewrite IH. reflexivity.
Qed.

Lemma scan_zones_enc (user_age : Z) (user_city category : string) (zones : list zone_rec) :
  scan_zones user_age user_city category (map enc_zone zones) =
  Ok (premium_candidates zones user_age user_city category).
Proof.
  unfold premium_candidates.
  induction zones as [|z zs IH]; [reflexivity|].
  cbn [map scan_zones flat_map]. set (rest := map enc_zone zs) in *.
  unfold enc_zone. simpl py_get. cbn [py_iter bind].
  rewrite city_found_enc. cbn [bind].
  destruct (city_listed user_city (zn_cities z)); cbn [negb].
  - rewrite scan_chart_enc. cbn [bind]. rewrite IH. reflexivity.
  - exact IH.
Qed.

Lemma premium_candidates_in (zones : list zone_rec) (user_age : Z) (user_city category : string)
    (m : premium_match) :
  In m (premium_candidates zones user_age user_city category) <->
  exists z c o b, In z zones /\ city_listed user_city (zn_cities z) = true /\
    In c (zn_premiumChart z) /\ In o (ch_premiumOptions c) /\ op_type o = category /\
    In b (op_ageBrackets o) /\ bracket_contains (VStr (br_age b)) user_age = true /\
    m = spec_match z c o b.
Proof.
  unfold premium_candidates. rewrite in_flat_map. split.
  - intros [z [Hz Hm]].
    destruct (city_listed user_city (zn_cities z)) eqn:Hcity; [|contradiction].
    apply in_flat_map in Hm as [c [Hc Hm]].
    apply in_flat_map in Hm as [o [Ho Hm]].
    destruct (String.eqb (op_type o) category) eqn:Ht; [|contradiction].
    apply in_flat_map in Hm as [b [Hb Hm]].
    destruct (bracket_contains (VStr (br_age b)) user_age) eqn:Hbc; [|contradiction].
    destruct Hm as [<-|[]].
    apply String.eqb_eq in Ht.
    exists z, c, o, b. repeat split; assumption.
  - intros (z & c & o & b & Hz & Hcity & Hc & Ho & Ht & Hb & Hbc & ->).
    exists z. split; [exact Hz|]. rewrite Hcity, in_flat_map.
    exists c. split; [exact Hc|]. rewrite in_flat_map.
    exists o. split; [exact Ho|]. rewrite (proj2 (String.eqb_eq _ _) Ht), in_flat_map.
    exists b. split; [exact Hb|]. rewrite Hbc. left. reflexivity.
Qed.

Lemma premium_candidates_numeric (zones : list zone_rec) (user_age : Z)
    (user_city category : string) (m : premium_match) :
  In m (premium_candidates zones user_age user_city category) ->
  exists q, pm_premium_amount m = VNum q.
Proof.
  intros H. apply premium_candidates_in in H as (z & c & o & b & _ & _ & _ & _ & _ & _ & _ & ->).
  exists (br_premiumAmount b). reflexivity.
Qed.

Lemma premium_le_trans (a b c : premium_match) :
  premium_le a b -> premium_le b c -> premium_le a c.
Proof.
  unfold premium_le.
  destruct (as_number (pm_premium_amount a)), (as_number (pm_premium_amount b)),
           (as_number (pm_premium_amount c)); try contradiction.
  apply Qle_trans.
Qed.

Lemma premium_le_num (a b : premium_match) (qa qb : Q) :
  pm_premium_amount a = VNum qa -> pm_premium_amount b = VNum qb ->
  premium_le a b <-> (qa <= qb)%Q.
Proof. intros Ha Hb. unfold premium_le. rewrite Ha, Hb. reflexivity. Qed.

Lemma Qltb_spec (x y : Q) : Qltb x y = true <-> (x < y)%Q.
Proof.
  unfold Qltb. rewrite negb_true_iff. split.
  - intros H. apply Qnot_le_lt. intros Hle. apply Qle_bool_iff in Hle. congruence.
  - intros H. destruct (Qle_bool y x) eqn:E; [|reflexivity].
    apply Qle_bool_iff in E. exfalso. apply (Qlt_not_le x y H E).
Qed.

(** [min] over numeric premiums returns a candidate with the lowest one. *)
Lemma py_min_from_lowest (best : premium_match) (rest : list premium_match) :
  (forall x, In x (best :: rest) -> exists q, pm_premium_amount x = VNum q) ->
  exists m, py_min_from best rest = Ok m /\ In m (best :: rest) /\
            forall x, In x (best :: rest) -> premium_le m x.
Proof.
  revert best. induction rest as [|x xs IH]; intros best Hnum.
  - exists best. split; [reflexivity|]. split; [left; reflexivity|].
    intros y [<-|[]]. destruct (Hnum best (or_introl eq_refl)) as [q Hq].
    apply (premium_le_num _ _ q q Hq Hq). apply Qle_refl.
  - destruct (Hnum best (or_introl eq_refl)) as [qb Hqb].
    destruct (Hnum x (or_intror (or_introl eq_refl))) as [qx Hqx].
    cbn [py_min_from]. rewrite Hqx, Hqb. cbn [py_lt as_number bind].
    set (b' := if Qltb qx qb then x else best).
    assert (Hb'le : premium_le b' best /\ premium_le b' x).
    { unfold b'. destruct (Qltb qx qb) eqn:E.
      - apply Qltb_spec in E.
        rewrite (premium_le_num _ _ _ _ Hqx Hqb), (premium_le_num _ _ _ _ Hqx Hqx).
        split; [apply Qlt_le_weak, E | apply Qle_refl].
      - assert (Hle : (qb <= qx)%Q).
        { apply Qnot_lt_le. intros Hlt. apply Qltb_spec in Hlt. congruence. }
        rewrite (premium_le_num _ _ _ _ Hqb Hqb), (premium_le_num _ _ _ _ Hqb Hqx).
        split; [apply Qle_refl | exact Hle]. }
    assert (Hb'in : b' = best \/ b' = x) by (unfold b'; destruct (Qltb qx qb); auto).
    destruct (IH b') as [m [Hm [Hin Hlow]]].
    { intros y [<-|Hy].
      - destruct Hb'in as [-> | ->]; eauto.
      - apply Hnum. right. right. exact Hy. }
    exists m. split; [exact Hm|]. split.
    + destruct Hin as [<-|Hin].
      * destruct Hb'in as [-> | ->]; [left | right; left]; reflexivity.
      * right. right. exact Hin.
    + intros y [<-|[<-|Hy]].
      * apply (premium_le_trans _ b'); [apply Hlow; left; reflexivity | apply Hb'le].
      * apply (premium_le_trans _ b'); [apply Hlow; left; reflexivity | apply Hb'le].
      * apply Hlow. right. exact Hy.
Qed.

Lemma find_applicable_premium_enc (zones : list zone_rec) (user_age : Z)
    (user_city category : string) :
  find_applicable_premium (VList (map enc_zone zones)) user_age user_city category =
  match premium_candidates zones user_age user_city category with
  | [] => Ok None
  | m :: ms => best <- py_min_from m ms ;; Ok (Some best)
  end.
Proof.
  destruct zones as [|z zs]; [reflexivity|].
  unfold find_applicable_premium. cbn [py_truthy length negb Nat.eqb].
  rewrite scan_zones_enc. reflexivity.
Qed.

(** C2: on a premium table of the data model, the resolver considers
    exactly the brackets of the zones listing the requested city
    (case-insensitively, exactly or as a substring), of the options whose
    type is the requested category (case-sensitively), and containing the
    user's age; it never raises, returns none exactly when there is no such
    bracket, and otherwise returns one with the lowest premium amount; a
    policy it resolves to none is dropped by the filter, not scored. *)
Theorem premium_resolver_cheapest (zones : list zone_rec) (user_age : Z)
    (user_city category : string) :
  (forall m, In m (premium_candidates zones user_age user_city category) <->
     exists z c o b, In z zones /\ city_listed user_city (zn_cities z) = true /\
       In c (zn_premiumChart z) /\ In o (ch_premiumOptions c) /\ op_type o = category /\
       In b (op_ageBrackets o) /\ bracket_contains (VStr (br_age b)) user_age = true /\
       m = spec_match z c o b)
  /\ (exists r, find_applicable_premium (VList (map enc_zone zones))
                  user_age user_city category = Ok r)
  /\ (find_applicable_premium (VList (map enc_zone zones)) user_age user_city category = Ok None
      <-> premium_candidates zones user_age user_city category = [])
  /\ (forall m,
        find_applicable_premium (VList (map enc_zone zones)) user_age user_city category
          = Ok (Some m) ->
        In m (premium_candidates zones user_age user_city category) /\
        forall m', In m' (premium_candidates zones user_age user_city category) ->
                   premium_le m m')
  /\ (forall (user_budget : Q) (policy : doc) (rest : list doc),
        py_get policy "premiums" (VList []) = VList (map enc_zone zones) ->
        premium_candidates zones user_age user_city category = [] ->
        filter_policies user_age user_budget user_city category (policy :: rest) =
        filter_policies user_age user_budget user_city category rest).
Proof.
  rewrite find_applicable_premium_enc.
  split; [apply premium_candidates_in|].
  destruct (premium_candidates zones user_age user_city category) as [|m0 ms] eqn:Hc.
  - split; [eexists; reflexivity|]. split; [split; reflexivity|].
    split; [intros m H; discriminate|].
    intros budget policy rest Hp _. cbn [filter_policies]. rewrite Hp.
    rewrite find_applicable_premium_enc, Hc. reflexivity.
  - destruct (py_min_from_lowest m0 ms) as [m [Hm [Hin Hlow]]].
    { intros x Hx. rewrite <- Hc in Hx. exact (premium_candidates_numeric _ _ _ _ _ Hx). }
    rewrite Hm. cbn [bind].
    split; [eexists; reflexivity|]. split; [split; discriminate|].
    split.
    + intros m' Hm'. injection Hm' as Heq. subst m'. split; [exact Hin | exact Hlow].
    + intros budget policy rest _ Hnil. discriminate.
Qed.

(** ** Sorting and slicing *)

Definition key_le (a b : recommendation) : Prop := key_lt b a = false.

Lemma key_lt_asym (a b : recommendation) : key_lt a b = true -> key_lt b a = false.
Proof.
  unfold key_lt.
  destruct (Qeq_bool (- combined_score a) (- combined_score b)) eqn:E1;
  destruct (Qeq_bool (- combined_score b) (- combined_score a)) eqn:E2.
  - rewrite !Qltb_spec. intros H. destruct (Qltb (premium b) (premium a)) eqn:E3; [|reflexivity].
    apply Qltb_spec in E3. lra.
  - apply Qeq_bool_iff in E1. apply Qeq_bool_neq in E2. exfalso. apply E2. lra.
  - apply Qeq_bool_iff in E2. apply Qeq_bool_neq in E1. exfalso. apply E1. lra.
  - rewrite !Qltb_spec. intros H.
    destruct (Qltb (- combined_score b) (- combined_score a)) eqn:E3; [|reflexivity].
    apply Qltb_spec in E3. lra.
Qed.

Lemma key_le_ordered (x y : recommendation) : key_le x y -> ordered_pair x y.
Proof.
  unfold key_le, key_lt, ordered_pair.
  destruct (Qeq_bool (- combined_score y) (- combined_score x)) eqn:E.
  - apply Qeq_bool_iff in E. intros H. right.
    split; [lra|]. apply Qnot_lt_le. intros Hlt. apply Qltb_spec in Hlt. congruence.
  - apply Qeq_bool_neq in E. intros H. left.
    assert (Hle : (- combined_score x <= - combined_score y)%Q).
    { apply Qnot_lt_le. intros Hlt. apply Qltb_spec in Hlt. congruence. }
    destruct (Qlt_le_dec (combined_score y) (combined_score x)) as [Hlt|Hge]; [exact Hlt|].
    exfalso. apply E. lra.
Qed.

Lemma insert_rec_hd (a x : recommendation) (l : list recommendation) :
  HdRel key_le a l -> key_le a x -> HdRel key_le a (insert_rec x l).
Proof.
  intros Hl Hx. destruct l as [|b l]; cbn [insert_rec].
  - constructor. exact Hx.
  - destruct (key_lt b x); constructor; [inversion Hl; assumption | exact Hx].
Qed.

Lemma insert_rec_sorted (x : recommendation) (l : list recommendation) :
  Sorted key_le l -> Sorted key_le (insert_rec x l).
Proof.
  induction l as [|a l IH]; intros Hs; cbn [insert_rec].
  - repeat constructor.
  - destruct (key_lt a x) eqn:E.
    + inversion Hs as [|? ? Hs' Hhd]; subst.
      constructor; [apply IH, Hs'|].
      apply insert_rec_hd; [exact Hhd|]. unfold key_le. apply key_lt_asym, E.
    + constructor; [exact Hs|]. constructor. exact E.
Qed.

Lemma sort_recs_sorted (l : list recommendation) : Sorted key_le (sort_recs l).
Proof.
  induction l as [|x l IH]; cbn [sort_recs]; [constructor|]. apply insert_rec_sorted, IH.
Qed.

Lemma insert_rec_perm (x : recommendation) (l : list recommendation) :
  Permutation (insert_rec x l) (x :: l).
Proof.
  induction l as [|a l IH]; cbn [insert_rec]; [reflexivity|].
  destruct (key_lt a x); [|reflexivity].
  rewrite IH. apply perm_swap.
Qed.

Lemma sort_recs_perm (l : list recommendation) : Permutation (sort_recs l) l.
Proof.
  induction l as [|x l IH]; cbn [sort_recs]; [reflexivity|].
  rewrite insert_rec_perm, IH. reflexivity.
Qed.

Lemma sorted_adjacent_ordered (l : list recommendation) :
  Sorted key_le l -> adjacent_ordered l.
Proof.
  induction 1 as [|x l Hs IH Hhd]; [exact I|].
  destruct l as [|y l]; [exact I|].
  split; [|exact IH]. apply key_le_ordered. inversion Hhd. assumption.
Qed.

Lemma adjacent_ordered_firstn (n : nat) (l : list recommendation) :
  adjacent_ordered l -> adjacent_ordered (firstn n l).
Proof.
  revert n. induction l as [|x l IH]; intros n H; [destruct n; exact I|].
  destruct n as [|n]; [exact I|]. cbn [firstn].
  destruct l as [|y l]; [destruct n; exact I|].
  destruct H as [Hxy H]. destruct n as [|n]; [exact I|].
  cbn [firstn] in *. split; [exact Hxy|]. exact (IH (S n) H).
Qed.

Lemma py_slice_to_firstn {A} (n : Z) (l : list A) :
  exists k, py_slice_to n l = firstn k l.
Proof. unfold py_slice_to. destruct (0 <=? n)%Z; eexists; reflexivity. Qed.

Lemma py_slice_to_nil {A} (n : Z) : @py_slice_to A n [] = [].
Proof. destruct (py_slice_to_firstn n (@nil A)) as [k ->]. apply firstn_nil. Qed.

Lemma in_firstn {A} (k : nat) (l : list A) (x : A) : In x (firstn k l) -> In x l.
Proof. intros H. rewrite <- (firstn_skipn k l). apply in_or_app. left. exact H. Qed.

(** ** The ranking pass *)

Section Pipeline.

Variable py_str : val -> string.
Variable similarity : string -> string -> Q.

Lemma filter_policies_kept (user_age : Z) (user_budget : Q) (user_city category : string)
    (policies : list doc) (filtered : list (doc * premium_match * Q)) :
  filter_policies user_age user_budget user_city category policies = Ok filtered ->
  forall p m q, In (p, m, q) filtered ->
    In p policies /\
    find_applicable_premium (py_get p "premiums" (VList [])) user_age user_city category
      = Ok (Some m) /\
    as_number (pm_premium_amount m) = Some q /\ (q <= user_budget)%Q.
Proof.
  revert filtered. induction policies as [|d ds IH]; intros filtered H p m q Hin.
  - injection H as <-. destruct Hin.
  - cbn [filter_policies] in H.
    destruct (find_applicable_premium (py_get d "premiums" (VList [])) user_age user_city category)
      as [[md|]|e] eqn:Hf; cbn [bind] in H; [| |discriminate].
    + destruct (as_number (pm_premium_amount md)) as [qd|] eqn:Hq; [|discriminate].
      destruct (filter_policies user_age user_budget user_city category ds) as [kept|e] eqn:Hk;
        cbn [bind] in H; [|discriminate].
      injection H as <-.
      destruct (Qle_bool qd user_budget) eqn:Hb.
      * destruct Hin as [Heq|Hin].
        -- injection Heq as <- <- <-. apply Qle_bool_iff in Hb.
           repeat split; [left; reflexivity | exact Hf | exact Hq | exact Hb].
        -- destruct (IH kept eq_refl p m q Hin) as [Hp Hrest].
           split; [right; exact Hp | exact Hrest].
      * destruct (IH kept eq_refl p m q Hin) as [Hp Hrest].
        split; [right; exact Hp | exact Hrest].
    + destruct (IH filtered H p m q Hin) as [Hp Hrest].
      split; [right; exact Hp | exact Hrest].
Qed.

Lemma score_all_scored (user_coverage_requirement : string)
    (filtered : list (doc * premium_match * Q)) (recs : list recommendation) :
  score_all py_str similarity user_coverage_requirement filtered = Ok recs ->
  forall r, In r recs -> exists p m q, In (p, m, q) filtered /\
    score_policy py_str similarity user_coverage_requirement p m q = Ok r.
Proof.
  revert recs. induction filtered as [|[[p m] q] fs IH]; intros recs H r Hr.
  - injection H as <-. destruct Hr.
  - cbn [score_all] in H.
    destruct (score_policy py_str similarity user_coverage_requirement p m q) as [r0|e] eqn:Hs;
      cbn [bind] in H; [|discriminate].
    destruct (score_all py_str similarity user_coverage_requirement fs) as [rs|e] eqn:Hrs;
      cbn [bind] in H; [|discriminate].
    injection H as <-. destruct Hr as [<-|Hr].
    + exists p, m, q. split; [left; reflexivity | exact Hs].
    + destruct (IH rs eq_refl r Hr) as (p' & m' & q' & Hin & Hsc).
      exists p', m', q'. split; [right; exact Hin | exact Hsc].
Qed.

Lemma score_policy_fields (user_coverage_requirement : string) (p : doc)
    (m : premium_match) (q : Q) (r : recommendation) :
  score_policy py_str similarity user_coverage_requirement p m q = Ok r ->
  let text := cd_text (extract_coverage_details py_str p) in
  premium r = q /\
  sum_insured r = pm_sum_insured m /\
  keyword_score r = km_match_percentage (keyword_matching user_coverage_requirement text) /\
  nlp_score r = round4 (similarity user_coverage_requirement text) /\
  combined_score r =
    round4 (km_match_percentage (keyword_matching user_coverage_requirement text) * (7 # 1000)
            + similarity user_coverage_requirement text * (3 # 10)).
Proof.
  unfold score_policy.
  destruct (generate_coverage_summary py_str user_coverage_requirement
              (extract_coverage_details py_str p)) as [summary|e]; cbn [bind];
    [|discriminate].
  intros H. injection H as <-. repeat split.
Qed.

Lemma get_recommendations_shape (store : list doc) (user_age : Z) (user_budget : Q)
    (user_city category user_coverage_requirement : string) (top_n : Z)
    (out : list recommendation) :
  get_recommendations py_str similarity store user_age user_budget user_city category
    user_coverage_requirement top_n = Ok out ->
  exists recs,
    scored_candidates py_str similarity store user_age user_budget user_city category
      user_coverage_requirement = Ok recs /\
    out = py_slice_to top_n (sort_recs recs).
Proof.
  unfold get_recommendations, scored_candidates.
  destruct (find_active store) as [|d ds] eqn:Ha.
  - intros H. injection H as <-. exists []. split; [reflexivity|].
    symmetry. apply py_slice_to_nil.
  - destruct (filter_policies user_age user_budget user_city category (d :: ds))
      as [filtered|e] eqn:Hf; cbn [bind]; [|discriminate].
    destruct filtered as [|f fs].
    + intros H. injection H as <-. exists []. split; [reflexivity|].
      symmetry. apply py_slice_to_nil.
    + destruct (score_all py_str similarity user_coverage_requirement (f :: fs))
        as [recs|e]; cbn [bind]; [|discriminate].
      destruct (display_recommendations (py_slice_to top_n (sort_recs recs))); cbn [bind];
        [|discriminate].
      intros H. injection H as <-. exists recs. split; reflexivity.
Qed.

(** Every returned recommendation was scored from an active document of the
    store, at a resolved premium within budget. *)
Lemma returned_from_store (store : list doc) (user_age : Z) (user_budget : Q)
    (user_city category user_coverage_requirement : string) (top_n : Z)
    (out : list recommendation) (r : recommendation) :
  get_recommendations py_str similarity store user_age user_budget user_city category
    user_coverage_requirement top_n = Ok out ->
  In r out ->
  exists p m q,
    In p store /\ mongo_matches_true (py_get p "isActive" VNull) = true /\
    find_applicable_premium (py_get p "premiums" (VList [])) user_age user_city category
      = Ok (Some m) /\
    as_number (pm_premium_amount m) = Some q /\ (q <= user_budget)%Q /\
    score_policy py_str similarity user_coverage_requirement p m q = Ok r.
Proof.
  intros H Hr.
  destruct (get_recommendations_shape _ _ _ _ _ _ _ _ H) as [recs [Hrecs ->]].
  destruct (py_slice_to_firstn top_n (sort_recs recs)) as [k Hk]. rewrite Hk in Hr.
  apply in_firstn in Hr. apply (Permutation_in _ (sort_recs_perm recs)) in Hr.
  unfold scored_candidates in Hrecs.
  destruct (filter_policies user_age user_budget user_city category (find_active store))
    as [filtered|e] eqn:Hf; cbn [bind] in Hrecs; [|discriminate].
  destruct (score_all_scored _ _ _ Hrecs r Hr) as (p & m & q & Hin & Hs).
  destruct (filter_policies_kept _ _ _ _ _ _ Hf p m q Hin) as (Hp & Hm & Hq & Hb).
  unfold find_active in Hp. apply filter_In in Hp as [Hp Hact].
  exists p, m, q. repeat split; assumption.
Qed.

End Pipeline.

Lemma filter_policies_none (user_age : Z) (user_budget : Q) (user_city category : string)
    (policies : list doc) :
  (forall p, In p policies ->
     find_applicable_premium (py_get p "premiums" (VList [])) user_age user_city category
       = Ok None \/
     exists m q,
       find_applicable_premium (py_get p "premiums" (VList [])) user_age user_city category
         = Ok (Some m) /\
       as_number (pm_premium_amount m) = Some q /\ (user_budget < q)%Q) ->
  filter_policies user_age user_budget user_city category policies = Ok [].
Proof.
  induction policies as [|d ds IH]; intros H; [reflexivity|].
  cbn [filter_policies].
  assert (Hds : filter_policies user_age user_budget user_city category ds = Ok [])
    by (apply IH; intros p Hp; apply H; right; exact Hp).
  destruct (H d (or_introl eq_refl)) as [Hn | (m & q & Hm & Hq & Hlt)].
  - rewrite Hn. cbn [bind]. exact Hds.
  - rewrite Hm. cbn [bind]. rewrite Hq, Hds. cbn [bind].
    destruct (Qle_bool q user_budget) eqn:Hb; [|reflexivity].
    apply Qle_bool_iff in Hb. exfalso. apply (Qlt_not_le _ _ Hlt Hb).
Qed.

Lemma slice_length_le {A} (n : Z) (l : list A) :
  (0 <= n)%Z -> (length (py_slice_to n l) <= Z.to_nat n)%nat.
Proof.
  intros Hn. unfold py_slice_to. destruct (Z.leb_spec 0 n); [|lia].
  rewrite length_firstn. lia.
Qed.

(** *** C1 *)

(** Claim C1: for a non-negative [top_n] (the request model declares
    [top_n >= 1]), every list returned by [get_recommendations] is ordered
    on adjacent entries by combined score descending, then premium
    ascending; it is the stable sort of the scored candidates cut to its
    first [top_n] entries, so it holds at most [top_n] entries, and all of
    them when fewer survive. *)
Theorem ranked_output_order_and_truncation (py_str : val -> string)
    (similarity : string -> string -> Q) (store : list doc) (user_age : Z) (user_budget : Q)
    (user_city category user_coverage_requirement : string) (top_n : Z)
    (out : list recommendation)
    (Htop : (0 <= top_n)%Z)
    (H : get_recommendations py_str similarity store user_age user_budget user_city category
           user_coverage_requirement top_n = Ok out) :
  adjacent_ordered out /\
  exists recs,
    scored_candidates py_str similarity store user_age user_budget user_city category
      user_coverage_requirement = Ok recs /\
    Permutation (sort_recs recs) recs /\ Sorted key_le (sort_recs recs) /\
    out = firstn (Z.to_nat top_n) (sort_recs recs) /\
    (length out <= Z.to_nat top_n)%nat /\
    length out = Nat.min (Z.to_nat top_n) (length recs).
Proof.
  destruct (get_recommendations_shape _ _ _ _ _ _ _ _ _ _ H) as [recs [Hrecs Hout]].
  assert (Hslice : out = firstn (Z.to_nat top_n) (sort_recs recs)).
  { rewrite Hout. unfold py_slice_to. destruct (Z.leb_spec 0 top_n); [reflexivity|lia]. }
  split.
  - rewrite Hslice. apply adjacent_ordered_firstn, sorted_adjacent_ordered, sort_recs_sorted.
  - exists recs. repeat split.
    + exact Hrecs.
    + apply sort_recs_perm.
    + apply sort_recs_sorted.
    + exact Hslice.
    + rewrite Hout. apply slice_length_le. exact Htop.
    + rewrite Hslice, length_firstn, (Permutation_length (sort_recs_perm recs)). reflexivity.
Qed.

Lemma ranked_output_order_and_truncation_witness :
  exists out,
    (0 <= 1)%Z /\
    get_recommendations sample_str sample_similarity
      [sample_policy "a" "alpha" 4000; sample_policy "b" "beta" 5000]
      30 10000 "Mumbai" "Individual" "" 1 = Ok out /\
    adjacent_ordered out /\ length out = 1%nat.
Proof.
  destruct (get_recommendations sample_str sample_similarity
      [sample_policy "a" "alpha" 4000; sample_policy "b" "beta" 5000]
      30 10000 "Mumbai" "Individual" "" 1) as [out|e] eqn:H;
    [|vm_compute in H; discriminate].
  destruct (ranked_output_order_and_truncation sample_str sample_similarity
      [sample_policy "a" "alpha" 4000; sample_policy "b" "beta" 5000]
      30 10000 "Mumbai" "Individual" "" 1 out ltac:(lia) H) as [Hord (recs & Hrecs & _ & _ & _ & _ & Hlen)].
  exists out. split; [lia|]. split; [reflexivity|]. split; [exact Hord|].
  rewrite Hlen. vm_compute in Hrecs. injection Hrecs as <-. reflexivity.
Defined.

(** *** C4 *)

(** Claim C4: every returned recommendation was scored from a store
    document whose text blob [text] gives the exact combined score
    [keyword_score * 0.007 + similarity * 0.3], with the keyword score the
    0-100 match percentage of [keyword_matching]; the record stores that
    percentage, and the combined and semantic scores rounded to 4
    decimals. *)
Theorem combined_score_coefficients (py_str : val -> string)
    (similarity : string -> string -> Q) (store : list doc) (user_age : Z) (user_budget : Q)
    (user_city category user_coverage_requirement : string) (top_n : Z)
    (out : list recommendation) (r : recommendation)
    (H : get_recommendations py_str similarity store user_age user_budget user_city category
           user_coverage_requirement top_n = Ok out)
    (Hr : In r out) :
  exists p, In p store /\
    let text := cd_text (extract_coverage_details py_str p) in
    keyword_score r = km_match_percentage (keyword_matching user_coverage_requirement text) /\
    nlp_score r = round4 (similarity user_coverage_requirement text) /\
    combined_score r =
      round4 (keyword_score r * (7 # 1000) + similarity user_coverage_requirement text * (3 # 10)).
Proof.
  destruct (returned_from_store _ _ _ _ _ _ _ _ _ _ _ H Hr)
    as (p & m & q & Hp & _ & _ & _ & _ & Hs).
  destruct (score_policy_fields _ _ _ _ _ _ _ Hs) as (_ & _ & Hk & Hn & Hc).
  exists p. split; [exact Hp|]. cbv zeta. rewrite Hk. repeat split; assumption.
Qed.

Lemma combined_score_coefficients_witness :
  exists out r,
    get_recommendations sample_str sample_similarity
      [sample_policy "a" "alpha" 4000; sample_policy "b" "beta" 5000]
      30 10000 "Mumbai" "Individual" "" 5 = Ok out /\ In r out /\
    exists p, In p [sample_policy "a" "alpha" 4000; sample_policy "b" "beta" 5000] /\
      combined_score r =
        round4 (keyword_score r * (7 # 1000)
                + sample_similarity "" (cd_text (extract_coverage_details sample_str p)) * (3 # 10)).
Proof.
  destruct (get_recommendations sample_str sample_similarity
      [sample_policy "a" "alpha" 4000; sample_policy "b" "beta" 5000]
      30 10000 "Mumbai" "Individual" "" 5) as [out|e] eqn:H;
    [|vm_compute in H; discriminate].
  destruct out as [|r rest]; [vm_compute in H; discriminate|].
  destruct (combined_score_coefficients sample_str sample_similarity
      [sample_policy "a" "alpha" 4000; sample_policy "b" "beta" 5000]
      30 10000 "Mumbai" "Individual" "" 5 (r :: rest) r H (or_introl eq_refl))
    as (p & Hp & _ & _ & Hc).
  exists (r :: rest), r. split; [reflexivity|]. split; [left; reflexivity|].
  exists p. split; [exact Hp | exact Hc].
Defined.

(** *** C6 *)

(** Claim C6: every returned recommendation carries the numeric value of
    the resolved premium of a store document, and that premium is at most
    the user's budget. *)
Theorem returned_within_budget (py_str : val -> string)
    (similarity : string -> string -> Q) (store : list doc) (user_age : Z) (user_budget : Q)
    (user_city category user_coverage_requirement : string) (top_n : Z)
    (out : list recommendation) (r : recommendation)
    (H : get_recommendations py_str similarity store user_age user_budget user_city category
           user_coverage_requirement top_n = Ok out)
    (Hr : In r out) :
  (premium r <= user_budget)%Q /\
  exists p m, In p store /\
    find_applicable_premium (py_get p "premiums" (VList [])) user_age user_city category
      = Ok (Some m) /\
    as_number (pm_premium_amount m) = Some (premium r).
Proof.
  destruct (returned_from_store _ _ _ _ _ _ _ _ _ _ _ H Hr)
    as (p & m & q & Hp & _ & Hm & Hq & Hb & Hs).
  destruct (score_policy_fields _ _ _ _ _ _ _ Hs) as (Hpr & _).
  rewrite Hpr. split; [exact Hb|]. exists p, m. repeat split; assumption.
Qed.

Lemma returned_within_budget_witness :
  exists out r,
    get_recommendations sample_str sample_similarity
      [sample_policy "a" "alpha" 4000; sample_policy "b" "beta" 12000]
      30 10000 "Mumbai" "Individual" "" 5 = Ok out /\ In r out /\
    (premium r <= 10000)%Q.
Proof.
  destruct (get_recommendations sample_str sample_similarity
      [sample_policy "a" "alpha" 4000; sample_policy "b" "beta" 12000]
      30 10000 "Mumbai" "Individual" "" 5) as [out|e] eqn:H;
    [|vm_compute in H; discriminate].
  destruct out as [|r rest]; [vm_compute in H; discriminate|].
  destruct (returned_within_budget sample_str sample_similarity
      [sample_policy "a" "alpha" 4000; sample_policy "b" "beta" 12000]
      30 10000 "Mumbai" "Individual" "" 5 (r :: rest) r H (or_introl eq_refl)) as [Hb _].
  exists (r :: rest), r. split; [reflexivity|]. split; [left; reflexivity | exact Hb].
Defined.

(** *** C7 *)

(** Claim C7: every returned recommendation was scored from a store
    document that the [{"isActive": True}] query selects; in particular its
    [isActive] field is not [false]. *)
Theorem returned_only_active (py_str : val -> string)
    (similarity : string -> string -> Q) (store : list doc) (user_age : Z) (user_budget : Q)
    (user_city category user_coverage_requirement : string) (top_n : Z)
    (out : list recommendation) (r : recommendation)
    (H : get_recommendations py_str similarity store user_age user_budget user_city category
           user_coverage_requirement top_n = Ok out)
    (Hr : In r out) :
  exists p m q, In p store /\
    mongo_matches_true (py_get p "isActive" VNull) = true /\
    py_get p "isActive" VNull <> VBool false /\
    score_policy py_str similarity user_coverage_requirement p m q = Ok r.
Proof.
  destruct (returned_from_store _ _ _ _ _ _ _ _ _ _ _ H Hr)
    as (p & m & q & Hp & Hact & _ & _ & _ & Hs).
  exists p, m, q. split; [exact Hp|]. split; [exact Hact|]. split; [|exact Hs].
  intros Hf. rewrite Hf in Hact. discriminate.
Qed.

Lemma returned_only_active_witness :
  exists out r,
    get_recommendations sample_str sample_similarity
      [inactive_policy;
       sample_policy "b" "beta" 5000]
      30 10000 "Mumbai" "Individual" "" 5 = Ok out /\ In r out /\
    exists p m q,
      In p [inactive_policy;
            sample_policy "b" "beta" 5000] /\
      py_get p "isActive" VNull <> VBool false /\
      score_policy sample_str sample_similarity "" p m q = Ok r.
Proof.
  destruct (get_recommendations sample_str sample_similarity
      [inactive_policy;
       sample_policy "b" "beta" 5000]
      30 10000 "Mumbai" "Individual" "" 5) as [out|e] eqn:H;
    [|vm_compute in H; discriminate].
  destruct out as [|r rest]; [vm_compute in H; discriminate|].
  destruct (returned_only_active sample_str sample_similarity
      [inactive_policy;
       sample_policy "b" "beta" 5000]
      30 10000 "Mumbai" "Individual" "" 5 (r :: rest) r H (or_introl eq_refl))
    as (p & m & q & Hp & _ & Hf & Hs).
  exists (r :: rest), r. split; [reflexivity|]. split; [left; reflexivity|].
  exists p, m, q. repeat split; assumption.
Defined.

(** *** C9 *)

(** Claim C9: when the store holds no active policy, or when every active
    policy either resolves to no premium or resolves to a numeric premium
    above the budget, [get_recommendations] returns the empty list. *)
Theorem empty_result_conditions (py_str : val -> string)
    (similarity : string -> string -> Q) (store : list doc) (user_age : Z) (user_budget : Q)
    (user_city category user_coverage_requirement : string) (top_n : Z)
    (H : find_active store = [] \/
         forall p, In p (find_active store) ->
           find_applicable_premium (py_get p "premiums" (VList [])) user_age user_city category
             = Ok None \/
           exists m q,
             find_applicable_premium (py_get p "premiums" (VList [])) user_age user_city category
               = Ok (Some m) /\
             as_number (pm_premium_amount m) = Some q /\ (user_budget < q)%Q) :
  get_recommendations py_str similarity store user_age user_budget user_city category
    user_coverage_requirement top_n = Ok [].
Proof.
  unfold get_recommendations.
  destruct H as [Hnil | Hall].
  - rewrite Hnil. reflexivity.
  - destruct (find_active store) as [|d ds] eqn:Ha; [reflexivity|].
    rewrite (filter_policies_none _ _ _ _ _ Hall). reflexivity.
Qed.

Lemma empty_result_conditions_witness :
  get_recommendations sample_str sample_similarity
    [inactive_policy; sample_policy "a" "alpha" 12000]
    30 10000 "Mumbai" "Individual" "" 5 = Ok [].
Proof.
  apply empty_result_conditions. right.
  intros p Hp. vm_compute in Hp. destruct Hp as [<-|[]].
  right. vm_compute. eexists. eexists. split; [reflexivity|]. split; reflexivity.
Defined.

(** *** C10 *)

(** Claim C10, as the code has it: the [nlp_score] and [combined_score]
    fields are the exact scores rounded to 4 decimals, and the output is
    ordered on the rounded combined score, entries whose rounded combined
    scores are equal coming by premium ascending. *)
Theorem rounded_scores_order (py_str : val -> string)
    (similarity : string -> string -> Q) (store : list doc) (user_age : Z) (user_budget : Q)
    (user_city category user_coverage_requirement : string) (top_n : Z)
    (out : list recommendation)
    (H : get_recommendations py_str similarity store user_age user_budget user_city category
           user_coverage_requirement top_n = Ok out) :
  (forall r, In r out -> exists p, In p store /\
     nlp_score r =
       round4 (similarity user_coverage_requirement
                 (cd_text (extract_coverage_details py_str p))) /\
     combined_score r =
       round4 (exact_combined py_str similarity user_coverage_requirement p)) /\
  adjacent_ordered out.
Proof.
  split.
  - intros r Hr.
    destruct (returned_from_store _ _ _ _ _ _ _ _ _ _ _ H Hr)
      as (p & m & q & Hp & _ & _ & _ & _ & Hs).
    destruct (score_policy_fields _ _ _ _ _ _ _ Hs) as (_ & _ & _ & Hn & Hc).
    exists p. split; [exact Hp|]. split; [exact Hn | exact Hc].
  - destruct (get_recommendations_shape _ _ _ _ _ _ _ _ _ _ H) as [recs [_ ->]].
    destruct (py_slice_to_firstn top_n (sort_recs recs)) as [k ->].
    apply adjacent_ordered_firstn, sorted_adjacent_ordered, sort_recs_sorted.
Qed.

Lemma rounded_scores_order_witness :
  exists out,
    get_recommendations sample_str sample_similarity
      [sample_policy "a" "alpha" 4000; sample_policy "b" "beta" 5000]
      30 10000 "Mumbai" "Individual" "" 5 = Ok out /\ adjacent_ordered out.
Proof.
  destruct (get_recommendations sample_str sample_similarity
      [sample_policy "a" "alpha" 4000; sample_policy "b" "beta" 5000]
      30 10000 "Mumbai" "Individual" "" 5) as [out|e] eqn:H;
    [|vm_compute in H; discriminate].
  exists out. split; [reflexivity|].
  exact (proj2 (rounded_scores_order sample_str sample_similarity
      [sample_policy "a" "alpha" 4000; sample_policy "b" "beta" 5000]
      30 10000 "Mumbai" "Individual" "" 5 out H)).
Defined.

(** Claim C10, counterexample: the exact combined scores of the policies
    "a" (premium 4000) and "b" (premium 5000) differ by 0.00002, less than
    the 4-decimal resolution, yet they round to 0.1234 and 0.1235, so they
    do not tie and "b" comes first despite its higher premium. *)
Lemma near_tie_not_tied :
  exists out,
    get_recommendations sample_str sample_similarity
      [sample_policy "a" "alpha" 4000; sample_policy "b" "beta" 5000]
      30 10000 "Mumbai" "Individual" "" 5 = Ok out /\
    (exact_combined sample_str sample_similarity "" (sample_policy "b" "beta" 5000)
     - exact_combined sample_str sample_similarity "" (sample_policy "a" "alpha" 4000)
     < 1 # 10000)%Q /\
    (0 <= exact_combined sample_str sample_similarity "" (sample_policy "b" "beta" 5000)
          - exact_combined sample_str sample_similarity "" (sample_policy "a" "alpha" 4000))%Q /\
    map policy_id out = ["b"; "a"] /\ map premium out = [5000; 4000]%Q /\
    map combined_score out = [1235 # 10000; 1234 # 10000]%Q.
Proof.
  vm_compute. eexists. split; [reflexivity|].
  repeat split; vm_compute; first [reflexivity | intros; discriminate].
Qed.

(** *** C8 *)

(** Claim C8: a zone stored with [cities: null] makes
    [for city in cities] raise [TypeError], which aborts the whole ranking
    pass even though the other policy resolves; the same policy with
    [premiums: null] is skipped and the pass completes. *)
Theorem null_cities_aborts_pass (py_str : val -> string)
    (similarity : string -> string -> Q) :
  get_recommendations py_str similarity [null_cities_policy; plain_policy]
    30 10000 "Mumbai" "Individual" "" 5 = Raise TypeError /\
  exists out,
    get_recommendations py_str similarity [null_premiums_policy; plain_policy]
      30 10000 "Mumbai" "Individual" "" 5 = Ok out /\
    map policy_id out = [py_str (VStr "good")].
Proof.
  split.
  - vm_compute. reflexivity.
  - vm_compute. eexists. split; reflexivity.
Qed.

(** ** Further properties of the recommender *)

(** *** Rounding *)

Lemma round_half_even_spec (q : Q) :
  (2 * Z.abs (round_half_even q * Zpos (Qden q) - Qnum q) <= Zpos (Qden q))%Z.
Proof.
  unfold round_half_even.
  destruct q as [n d]. cbn [Qnum Qden].
  pose proof (Z.div_mod n (Zpos d) ltac:(lia)) as Hdm.
  pose proof (Z.mod_pos_bound n (Zpos d) ltac:(lia)) as Hb.
  set (f := (n / Zpos d)%Z) in *. set (r := (n mod Zpos d)%Z) in *.
  destruct (Z.compare_spec (2 * r) (Zpos d)) as [Heq|Hlt|Hgt].
  - destruct (Z.even f); lia.
  - lia.
  - lia.
Qed.

Lemma round4_error (q : Q) : Qabs (round4 q - q) <= 1 # 20000.
Proof.
  pose proof (round_half_even_spec (q * 10000)) as H.
  unfold round4. destruct q as [n d].
  revert H. cbn [Qmult Qnum Qden].
  set (R := round_half_even _). intros H.
  unfold Qminus, Qplus, Qopp, Qabs, Qle. cbn [Qnum Qden].
  rewrite !Pos2Z.inj_mul in *. lia.
Qed.

(** *** Keyword matching *)

Lemma filter_mono {A} (f g : A -> bool) (l : list A) :
  (forall x, f x = true -> g x = true) ->
  (length (filter f l) <= length (filter g l))%nat /\ incl (filter f l) (filter g l).
Proof.
  intros Hfg. induction l as [|x l [IHl IHi]]; simpl.
  - split; [lia | intros y []].
  - destruct (f x) eqn:Hf.
    + rewrite (Hfg x Hf). simpl. split; [lia|].
      intros y [<-|Hy]; [left; reflexivity | right; apply IHi, Hy].
    + destruct (g x); simpl; split; [lia| |lia|exact IHi].
      intros y Hy. right. apply IHi, Hy.
Qed.

Lemma filter_length_bound {A} (f : A -> bool) (l : list A) :
  (length (filter f l) <= length l)%nat.
Proof. induction l as [|x l IH]; simpl; [lia|]. destruct (f x); simpl; lia. Qed.

Lemma nodup_map_filter {A B} (g : A -> B) (f : A -> bool) (l : list A) :
  NoDup (map g l) -> NoDup (map g (filter f l)).
Proof.
  induction l as [|x l IH]; simpl; intros H; [constructor|].
  inversion H as [|? ? Hx Hl]; subst.
  destruct (f x); simpl; [|apply IH, Hl].
  constructor; [|apply IH, Hl].
  intros Hin. apply Hx. apply in_map_iff in Hin as (y & Hy & Hin).
  apply filter_In in Hin as [Hin _]. rewrite <- Hy. apply in_map, Hin.
Qed.

Lemma keyword_categories_nodup : NoDup (map fst keyword_map).
Proof.
  cbn [map keyword_map fst].
  repeat constructor; cbn [In]; intuition discriminate.
Qed.

Lemma prefix_app_mono (sub s b : string) :
  String.prefix sub s = true -> String.prefix sub (s ++ b) = true.
Proof.
  revert s. induction sub as [|c sub IH]; intros s H; [destruct (s ++ b); reflexivity|].
  destruct s as [|d s]; [discriminate|].
  simpl in *. destruct (ascii_dec c d); [apply IH, H | discriminate].
Qed.

Lemma py_in_app_mono_r (sub s b : string) : py_in sub s = true -> py_in sub (s ++ b) = true.
Proof.
  induction s as [|c s IH]; intros H.
  - rewrite py_in_eq in H. apply orb_true_iff in H as [H|H]; [|discriminate].
    destruct sub; [|discriminate]. apply py_in_prefix. destruct b; reflexivity.
  - rewrite py_in_eq in H |- *. apply orb_true_iff in H as [H|H].
    + rewrite (prefix_app_mono _ _ _ H). reflexivity.
    + cbn [append]. rewrite (IH H). apply orb_true_r.
Qed.

Lemma lower_app (a b : string) : lower (a ++ b) = lower a ++ lower b.
Proof. induction a as [|c a IH]; simpl; [reflexivity | rewrite IH; reflexivity]. Qed.

Lemma any_in_extend (kws : list string) (t1 t t2 : string) :
  any_in kws t = true -> any_in kws (t1 ++ t ++ t2) = true.
Proof.
  unfold any_in. intros H. apply existsb_exists in H as (kw & Hin & Hkw).
  apply existsb_exists. exists kw. split; [exact Hin|].
  apply py_in_app_mono, py_in_app_mono_r, Hkw.
Qed.

Lemma percentage_mono (m1 m2 r : nat) :
  (m1 <= m2)%nat ->
  inject_Z (Z.of_nat m1) / inject_Z (Z.of_nat r) * 100
  <= inject_Z (Z.of_nat m2) / inject_Z (Z.of_nat r) * 100.
Proof.
  intros Hm. apply Qmult_le_compat_r; [|discriminate].
  unfold Qdiv. destruct (Z.of_nat r) as [|p|p] eqn:Hr.
  - cbn [inject_Z Qinv]. rewrite !Qmult_0_r. apply Qle_refl.
  - apply Qmult_le_compat_r; [rewrite <- Zle_Qle; lia|].
    cbn [inject_Z Qinv]. discriminate.
  - lia.
Qed.

(** X1: the keyword counts of [keyword_matching] are consistent: the
    number of matched categories is the length of [matched_features], it
    never exceeds the number of categories the user asked for, which never
    exceeds the 13 categories of the map, and no category is listed
    twice. *)
Theorem keyword_matching_counts (user_requirement coverage_text : string) :
  let km := keyword_matching user_requirement coverage_text in
  km_keyword_score km = length (km_matched_features km) /\
  (km_keyword_score km <= km_total_keywords km <= 13)%nat /\
  NoDup (km_matched_features km).
Proof.
  cbv zeta. unfold keyword_matching. rewrite fold_keyword_step.
  cbv beta iota zeta. cbn [km_keyword_score km_total_keywords km_matched_features app plus].
  rewrite length_map. split; [reflexivity|]. split; [split|].
  - apply filter_and_length.
  - change 13%nat with (length keyword_map). apply filter_length_bound.
  - apply nodup_map_filter, keyword_categories_nodup.
Qed.

(** X2: extending the policy text on either side never lowers the keyword
    score: the categories the user asks for do not change, every category
    matched before is still matched, and the match count and percentage do
    not decrease. *)
Theorem keyword_matching_monotone (user_requirement t1 coverage_text t2 : string) :
  let km := keyword_matching user_requirement coverage_text in
  let km' := keyword_matching user_requirement (t1 ++ coverage_text ++ t2) in
  km_total_keywords km' = km_total_keywords km /\
  incl (km_matched_features km) (km_matched_features km') /\
  (km_keyword_score km <= km_keyword_score km')%nat /\
  km_match_percentage km <= km_match_percentage km'.
Proof.
  cbv zeta. unfold keyword_matching. rewrite !fold_keyword_step, !lower_app.
  cbv beta iota zeta.
  cbn [km_keyword_score km_total_keywords km_matched_features km_match_percentage app plus].
  set (ul := lower user_requirement).
  assert (Hmono : forall e : string * list string,
            any_in (snd e) ul && any_in (snd e) (lower coverage_text) = true ->
            any_in (snd e) ul && any_in (snd e) (lower t1 ++ lower coverage_text ++ lower t2)
            = true).
  { intros e He. apply andb_true_iff in He as [Hu Ht].
    rewrite Hu, (any_in_extend _ _ _ _ Ht). reflexivity. }
  destruct (filter_mono _ _ keyword_map Hmono) as [Hlen Hincl].
  split; [reflexivity|]. split; [|split].
  - intros c Hc. apply in_map_iff in Hc as (e & <- & He). apply in_map, Hincl, He.
  - exact Hlen.
  - destruct (0 <? _)%nat; [apply percentage_mono, Hlen | apply Qle_refl].
Qed.

(** *** Scores of the returned records *)

(** X3: the scores stored in a returned recommendation are within 0.00005
    of the exact scores of the store document it was built from. *)
Theorem returned_scores_rounding_error (py_str : val -> string)
    (similarity : string -> string -> Q) (store : list doc) (user_age : Z) (user_budget : Q)
    (user_city category user_coverage_requirement : string) (top_n : Z)
    (out : list recommendation) (r : recommendation)
    (H : get_recommendations py_str similarity store user_age user_budget user_city category
           user_coverage_requirement top_n = Ok out)
    (Hr : In r out) :
  exists p, In p store /\
    Qabs (combined_score r - exact_combined py_str similarity user_coverage_requirement p)
      <= 1 # 20000 /\
    Qabs (nlp_score r - similarity user_coverage_requirement
                          (cd_text (extract_coverage_details py_str p))) <= 1 # 20000.
Proof.
  destruct (returned_from_store _ _ _ _ _ _ _ _ _ _ _ H Hr)
    as (p & m & q & Hp & _ & _ & _ & _ & Hs).
  destruct (score_policy_fields _ _ _ _ _ _ _ Hs) as (_ & _ & _ & Hn & Hc).
  exists p. split; [exact Hp|]. rewrite Hc, Hn. unfold exact_combined.
  split; apply round4_error.
Qed.

Lemma returned_scores_rounding_error_witness :
  exists out r,
    get_recommendations sample_str sample_similarity
      [sample_policy "a" "alpha" 4000; sample_policy "b" "beta" 5000]
      30 10000 "Mumbai" "Individual" "" 5 = Ok out /\ In r out /\
    exists p, In p [sample_policy "a" "alpha" 4000; sample_policy "b" "beta" 5000] /\
      Qabs (combined_score r - exact_combined sample_str sample_similarity "" p) <= 1 # 20000.
Proof.
  destruct (get_recommendations sample_str sample_similarity
      [sample_policy "a" "alpha" 4000; sample_policy "b" "beta" 5000]
      30 10000 "Mumbai" "Individual" "" 5) as [out|e] eqn:H;
    [|vm_compute in H; discriminate].
  destruct out as [|r rest]; [vm_compute in H; discriminate|].
  destruct (returned_scores_rounding_error sample_str sample_similarity
      [sample_policy "a" "alpha" 4000; sample_policy "b" "beta" 5000]
      30 10000 "Mumbai" "Individual" "" 5 (r :: rest) r H (or_introl eq_refl))
    as (p & Hp & Hc & _).
  exists (r :: rest), r. split; [reflexivity|]. split; [left; reflexivity|].
  exists p. split; [exact Hp | exact Hc].
Defined.

(** *** [dict(items)] and [flatten_dict] *)

Lemma py_get_app (a b : list (string * val)) (k : string) (dflt : val) :
  py_get (a ++ b) k dflt = py_get a k (py_get b k dflt).
Proof.
  induction a as [|[k' v'] a IH]; simpl; [reflexivity|].
  destruct (String.eqb k' k); [reflexivity | exact IH].
Qed.

Lemma py_get_absent (d : list (string * val)) (k : string) (dflt : val) :
  py_has_key d k = false -> py_get d k dflt = dflt.
Proof.
  induction d as [|[k' v'] d IH]; simpl; [reflexivity|].
  intros H. apply orb_false_iff in H as [H1 H2]. rewrite H1. exact (IH H2).
Qed.

Lemma py_get_dict_set (d : list (string * val)) (kv : string * val) (k : string) (dflt : val) :
  py_get (dict_set d kv) k dflt = py_get [kv] k (py_get d k dflt).
Proof.
  destruct kv as [k0 v0]. unfold dict_set. cbn [fst snd].
  destruct (py_has_key d k0) eqn:Hk.
  - cbn [py_get]. destruct (String.eqb k0 k) eqn:Hkk.
    + apply String.eqb_eq in Hkk. subst k.
      induction d as [|[k' v'] d IH]; [discriminate|].
      cbn [map fst snd py_get]. destruct (String.eqb k' k0) eqn:Hk'.
      * cbn [fst snd py_get]. rewrite Hk'. reflexivity.
      * cbn [fst snd py_get]. rewrite Hk'. cbn [py_has_key existsb fst] in Hk.
        rewrite Hk' in Hk. exact (IH Hk).
    + clear Hk. induction d as [|[k' v'] d IH]; [reflexivity|].
      cbn [map fst snd py_get].
      destruct (String.eqb k' k0) eqn:Hk'; cbn [fst snd py_get].
      * apply String.eqb_eq in Hk'. subst k'. rewrite Hkk. exact IH.
      * destruct (String.eqb k' k); [reflexivity | exact IH].
  - rewrite py_get_app. cbn [py_get]. destruct (String.eqb_spec k0 k) as [<-|Hne].
    + apply py_get_absent, Hk.
    + reflexivity.
Qed.

Lemma py_get_fold_dict_set (items d : list (string * val)) (k : string) (dflt : val) :
  py_get (fold_left dict_set items d) k dflt = py_get (rev items) k (py_get d k dflt).
Proof.
  revert d. induction items as [|kv items IH]; intros d; [reflexivity|].
  cbn [fold_left rev]. rewrite IH, py_get_app, py_get_dict_set. reflexivity.
Qed.

Lemma py_has_key_in (d : list (string * val)) (k : string) :
  py_has_key d k = true <-> In k (map fst d).
Proof.
  unfold py_has_key. rewrite existsb_exists. split.
  - intros ([k' v] & Hin & Hk). apply String.eqb_eq in Hk. cbn in Hk. subst k'.
    apply (in_map fst _ _ Hin).
  - intros Hin. apply in_map_iff in Hin as ([k' v] & Hk & Hin). cbn in Hk. subst k'.
    exists (k, v). split; [exact Hin | apply String.eqb_refl].
Qed.

Lemma dict_set_keys (d : list (string * val)) (kv : string * val) :
  NoDup (map fst d) ->
  NoDup (map fst (dict_set d kv)) /\
  (forall k, In k (map fst (dict_set d kv)) <-> In k (map fst d) \/ k = fst kv).
Proof.
  intros Hnd. unfold dict_set. destruct (py_has_key d (fst kv)) eqn:Hk.
  - assert (Hmap : map fst (map (fun kv' => if String.eqb (fst kv') (fst kv)
                                            then (fst kv', snd kv) else kv') d) = map fst d).
    { rewrite map_map. apply map_ext. intros [k' v']. cbn.
      destruct (String.eqb k' (fst kv)); reflexivity. }
    rewrite Hmap. split; [exact Hnd|]. intros k. split; [intros H; left; exact H|].
    intros [H| ->]; [exact H|]. apply py_has_key_in, Hk.
  - rewrite map_app. cbn [map]. split.
    + apply NoDup_app; [exact Hnd | repeat constructor; intros [] |].
      intros x Hx [<-|[]]. apply py_has_key_in in Hx. congruence.
    + intros k. rewrite in_app_iff. cbn [In]. intuition.
Qed.

Lemma fold_dict_set_keys (items d : list (string * val)) :
  NoDup (map fst d) ->
  NoDup (map fst (fold_left dict_set items d)) /\
  (forall k, In k (map fst (fold_left dict_set items d)) <->
             In k (map fst d) \/ In k (map fst items)).
Proof.
  revert d. induction items as [|kv items IH]; intros d Hnd.
  - split; [exact Hnd|]. intros k. cbn. intuition.
  - cbn [fold_left]. destruct (dict_set_keys d kv Hnd) as [Hnd' Hk'].
    destruct (IH _ Hnd') as [H1 H2]. split; [exact H1|].
    intros k. rewrite H2, Hk'. cbn [map In]. intuition.
Qed.

(** X4: [dict(items)], as [flatten_dict] builds its result: every key
    occurs once, the keys are those of [items], and looking a key up gives
    the value of its last occurrence in [items]. *)
Theorem dict_of_items_spec (items : list (string * val)) :
  NoDup (map fst (dict_of_items items)) /\
  (forall k, In k (map fst (dict_of_items items)) <-> In k (map fst items)) /\
  (forall k dflt, py_get (dict_of_items items) k dflt = py_get (rev items) k dflt).
Proof.
  unfold dict_of_items.
  destruct (fold_dict_set_keys items [] (NoDup_nil _)) as [Hnd Hk].
  split; [exact Hnd|]. split.
  - intros k. rewrite Hk. cbn. intuition.
  - intros k dflt. rewrite py_get_fold_dict_set. reflexivity.
Qed.

Lemma fold_dict_set_fresh (items d : list (string * val)) :
  NoDup (map fst (d ++ items)) -> fold_left dict_set items d = (d ++ items)%list.
Proof.
  revert d. induction items as [|kv items IH]; intros d Hnd.
  - rewrite app_nil_r. reflexivity.
  - cbn [fold_left]. unfold dict_set at 2.
    destruct (py_has_key d (fst kv)) eqn:Hk.
    + exfalso. apply py_has_key_in in Hk. rewrite map_app in Hnd. cbn [map] in Hnd.
      apply NoDup_remove_2 in Hnd. apply Hnd, in_or_app. left. exact Hk.
    + rewrite IH; [rewrite <- app_assoc; reflexivity|]. rewrite <- app_assoc. exact Hnd.
Qed.


(** X5: [flatten_dict] leaves a flat dict (distinct keys, no dict or list
    values) unchanged, so the features [extract_coverage_details] takes from
    such a [coverage] dict are its entries rendered as
    ["key: value"], in document order, with the underscores of the keys
    turned into spaces. *)
Theorem flatten_flat_dict (py_str : val -> string) (policy : doc) (kvs : list (string * val))
    (Hnd : NoDup (map fst kvs))
    (Hsc : forallb (fun kv => is_scalar (snd kv)) kvs = true)
    (Hcov : py_get policy "coverage" VNull = VObj kvs) :
  flatten_val py_str (VObj kvs) "" = kvs /\
  cd_features (extract_coverage_details py_str policy) =
    map (fun kv => replace_char "_"%char " "%char (fst kv) ++ ": " ++ py_str (snd kv)) kvs.
Proof.
  assert (Hflat : flatten_val py_str (VObj kvs) "" = kvs).
  { cbn [flatten_val].
    match goal with |- dict_of_items (?F kvs) = _ => assert (HF : F kvs = kvs) end.
    { clear Hnd Hcov. induction kvs as [|[k v] kvs IH]; [reflexivity|].
      cbn [forallb snd] in Hsc. apply andb_true_iff in Hsc as [Hv Hsc].
      cbn beta iota zeta. rewrite (IH Hsc).
      destruct v; try discriminate Hv; reflexivity. }
    rewrite HF. unfold dict_of_items. apply fold_dict_set_fresh. exact Hnd. }
  split; [exact Hflat|].
  unfold extract_coverage_details. rewrite Hcov. cbn [cd_features].
  rewrite Hflat. reflexivity.
Qed.

Lemma flatten_flat_dict_witness :
  NoDup (map fst [("room_rent", VStr "single"); ("copay", VNum 10)]) /\
  forallb (fun kv => is_scalar (snd kv)) [("room_rent", VStr "single"); ("copay", VNum 10)]
    = true /\
  cd_features (extract_coverage_details sample_str
    [("coverage", VObj [("room_rent", VStr "single"); ("copay", VNum 10)])])
  = ["room rent: single"; "copay: "].
Proof.
  assert (Hnd : NoDup (map fst [("room_rent", VStr "single"); ("copay", VNum 10)])).
  { repeat constructor; cbn; intuition discriminate. }
  split; [exact Hnd|]. split; [reflexivity|].
  destruct (flatten_flat_dict sample_str
    [("coverage", VObj [("room_rent", VStr "single"); ("copay", VNum 10)])]
    [("room_rent", VStr "single"); ("copay", VNum 10)] Hnd eq_refl eq_refl) as [_ ->].
  reflexivity.
Defined.

(** X6: a policy whose [coverage] is missing or not a dict and whose
    [specialCoverages] and [addOns_OptionalBenefits] are missing or not
    lists yields empty coverage data: empty text, no features, no special
    coverages and no add-ons. *)
Theorem extract_missing_fields (py_str : val -> string) (policy : doc)
    (Hc : is_dict (py_get policy "coverage" VNull) = false)
    (Hs : is_list (py_get policy "specialCoverages" VNull) = false)
    (Ha : is_list (py_get policy "addOns_OptionalBenefits" VNull) = false) :
  extract_coverage_details py_str policy =
    {| cd_text := ""; cd_features := []; cd_special_coverages := []; cd_addons := [] |}.
Proof.
  unfold extract_coverage_details, selected_entries.
  destruct (py_get policy "coverage" VNull); try discriminate Hc;
  destruct (py_get policy "specialCoverages" VNull); try discriminate Hs;
  destruct (py_get policy "addOns_OptionalBenefits" VNull); try discriminate Ha;
  reflexivity.
Qed.

Lemma extract_missing_fields_witness :
  extract_coverage_details sample_str null_premiums_policy =
    {| cd_text := ""; cd_features := []; cd_special_coverages := []; cd_addons := [] |}.
Proof. apply extract_missing_fields; reflexivity. Defined.

(** *** [generate_coverage_summary] *)

Section Summary.

Variable py_str : val -> string.

Lemma summary_checks_none (ul tl : string) (specials : list doc)
    (checks : list (string * list string)) :
  forallb (fun c => negb (any_in (snd c) ul)) checks = true ->
  summary_checks py_str ul tl specials checks = Ok ([], []).
Proof.
  induction checks as [|[name kws] checks IH]; intros H; [reflexivity|].
  cbn [forallb snd] in H. apply andb_true_iff in H as [Hc H].
  cbn [summary_checks]. apply negb_true_iff in Hc. rewrite Hc. exact (IH H).
Qed.

Lemma find_details_ok (kws : list string) (specials : list doc) :
  (forall sc, In sc specials -> exists s, py_get sc "diseaseName" (VStr "") = VStr s) ->
  exists d, find_details kws specials = Ok d.
Proof.
  induction specials as [|sc specials IH]; intros H; [eexists; reflexivity|].
  cbn [find_details]. destruct (H sc (or_introl eq_refl)) as [s Hs]. rewrite Hs.
  cbn [py_lower bind]. destruct (any_in kws (lower s)); [eexists; reflexivity|].
  apply IH. intros sc' Hsc'. apply H. right. exact Hsc'.
Qed.

Lemma summary_checks_ok (ul tl : string) (specials : list doc)
    (checks : list (string * list string)) :
  (forall sc, In sc specials -> exists s, py_get sc "diseaseName" (VStr "") = VStr s) ->
  exists p, summary_checks py_str ul tl specials checks = Ok p.
Proof.
  intros Hsp. induction checks as [|[name kws] checks [p IH]]; [eexists; reflexivity|].
  cbn [summary_checks].
  destruct (any_in kws ul); [|eexists; exact IH].
  rewrite IH. destruct (any_in kws tl); cbn [bind]; [|eexists; reflexivity].
  destruct (find_details_ok kws specials Hsp) as [d Hd]. rewrite Hd. cbn [bind].
  eexists; reflexivity.
Qed.

Lemma summary_checks_triggered (ul tl : string) (specials : list doc)
    (checks : list (string * list string)) (resp nc : list string) :
  summary_checks py_str ul tl specials checks = Ok (resp, nc) ->
  (exists c, In c checks /\ any_in (snd c) ul = true) ->
  resp <> [] \/ nc <> [].
Proof.
  revert resp nc. induction checks as [|[name kws] checks IH]; intros resp nc H [c [Hc Hu]].
  - destruct Hc.
  - cbn [summary_checks] in H. destruct (any_in kws ul) eqn:Hk.
    + destruct (any_in kws tl).
      * destruct (find_details kws specials); cbn [bind] in H; [|discriminate].
        destruct (summary_checks py_str ul tl specials checks) as [[r n]|e];
          cbn [bind] in H; [|discriminate].
        injection H as <- <-. left. discriminate.
      * destruct (summary_checks py_str ul tl specials checks) as [[r n]|e];
          cbn [bind] in H; [|discriminate].
        injection H as <- <-. right. discriminate.
    + destruct Hc as [<-|Hc]; [cbn [snd] in Hu; congruence|].
      exact (IH resp nc H (ex_intro _ c (conj Hc Hu))).
Qed.

Lemma py_join_ok (sep : string) (vs : list val) :
  (forall v, In v vs -> exists s, v = VStr s) -> exists s, py_join sep vs = Ok s.
Proof.
  induction vs as [|v vs IH]; intros H; [eexists; reflexivity|].
  destruct (H v (or_introl eq_refl)) as [s ->].
  destruct vs as [|w ws]; [eexists; reflexivity|].
  destruct IH as [r Hr]; [intros x Hx; apply H; right; exact Hx|].
  cbn [py_join] in Hr |- *. rewrite Hr. cbn [bind]. eexists; reflexivity.
Qed.

Lemma py_join_bad (sep : string) (vs : list val) :
  (exists v, In v vs /\ forall s, v <> VStr s) -> py_join sep vs = Raise TypeError.
Proof.
  induction vs as [|v vs IH]; intros [x [Hx Hs]]; [destruct Hx|].
  destruct Hx as [->|Hx].
  - destruct x; try (destruct vs; reflexivity). exfalso. exact (Hs s eq_refl).
  - destruct vs as [|w ws]; [destruct Hx|].
    destruct v; try reflexivity.
    change (bind (py_join sep (w :: ws)) (fun r => Ok (s ++ sep ++ r)) = Raise TypeError).
    rewrite (IH (ex_intro _ x (conj Hx Hs))). reflexivity.
Qed.

End Summary.

(** X7: when the user text mentions none of the seven coverage checks, the
    summary is the fixed standard-coverage paragraph, whatever the policy's
    coverage data. *)
Theorem summary_standard_when_nothing_asked (py_str : val -> string)
    (user_requirement : string) (cd : coverage_data)
    (H : forallb (fun c => negb (any_in (snd c) (lower user_requirement))) coverage_checks
         = true) :
  generate_coverage_summary py_str user_requirement cd = Ok standard_coverage_text.
Proof.
  unfold generate_coverage_summary. rewrite summary_checks_none by exact H. reflexivity.
Qed.

Lemma summary_standard_when_nothing_asked_witness :
  generate_coverage_summary sample_str "low premium please"
    (extract_coverage_details sample_str (sample_policy "a" "cancer care" 4000))
  = Ok standard_coverage_text.
Proof. apply summary_standard_when_nothing_asked. vm_compute. reflexivity. Defined.

(** X8: [generate_coverage_summary] returns normally whenever every selected
    special coverage has a string [diseaseName] (or none) and each of the
    first two selected add-ons has a string [name] (or none). *)
Theorem summary_total_on_string_names (py_str : val -> string)
    (user_requirement : string) (cd : coverage_data)
    (Hsp : forall sc, In sc (cd_special_coverages cd) ->
             exists s, py_get sc "diseaseName" (VStr "") = VStr s)
    (Had : forall a, In a (firstn 2 (cd_addons cd)) ->
             exists s, py_get a "name" (VStr "") = VStr s) :
  exists summary, generate_coverage_summary py_str user_requirement cd = Ok summary.
Proof.
  unfold generate_coverage_summary.
  destruct (summary_checks_ok py_str (lower user_requirement) (lower (cd_text cd))
              (cd_special_coverages cd) coverage_checks Hsp) as [[resp nc] Hp].
  rewrite Hp. cbn [bind].
  assert (Hj : exists j, py_join ", " (map (fun a => py_get a "name" (VStr ""))
                                          (firstn 2 (cd_addons cd))) = Ok j).
  { apply py_join_ok. intros v Hv. apply in_map_iff in Hv as (a & <- & Ha).
    apply Had, Ha. }
  destruct Hj as [j Hj].
  destruct resp as [|r1 resp], nc as [|n1 nc]; [eexists; reflexivity| | |];
    destruct (cd_addons cd) as [|a addons];
    try (eexists; reflexivity); rewrite Hj; eexists; reflexivity.
Qed.

Lemma summary_total_on_string_names_witness :
  exists summary,
    generate_coverage_summary sample_str "cancer cover"
      (extract_coverage_details sample_str
         [("specialCoverages", VList [VObj [("diseaseName", VStr "Cancer");
                                            ("isCovered", VBool true);
                                            ("limit", VStr "10 lakh")]]);
          ("addOns_OptionalBenefits", VList [VObj [("name", VStr "OPD");
                                                   ("isAvailable", VBool true)]])])
    = Ok summary.
Proof.
  apply summary_total_on_string_names.
  - intros sc Hsc. vm_compute in Hsc. destruct Hsc as [<-|[]]. eexists. reflexivity.
  - intros a Ha. vm_compute in Ha. destruct Ha as [<-|[]]. eexists. reflexivity.
Defined.

(** X9: when the user text mentions at least one of the seven coverage
    checks, an add-on among the first two selected ones whose [name] is not
    a string makes [generate_coverage_summary] raise [TypeError] (at
    [', '.join]); the special coverages are assumed to have string names,
    so that nothing raises earlier. *)
Theorem summary_addon_name_type_error (py_str : val -> string)
    (user_requirement : string) (cd : coverage_data)
    (Htrig : exists c, In c coverage_checks /\ any_in (snd c) (lower user_requirement) = true)
    (Hsp : forall sc, In sc (cd_special_coverages cd) ->
             exists s, py_get sc "diseaseName" (VStr "") = VStr s)
    (Hbad : exists a, In a (firstn 2 (cd_addons cd)) /\
              forall s, py_get a "name" (VStr "") <> VStr s) :
  generate_coverage_summary py_str user_requirement cd = Raise TypeError.
Proof.
  unfold generate_coverage_summary.
  destruct (summary_checks_ok py_str (lower user_requirement) (lower (cd_text cd))
              (cd_special_coverages cd) coverage_checks Hsp) as [[resp nc] Hp].
  pose proof (summary_checks_triggered _ _ _ _ _ _ _ Hp Htrig) as Hne.
  rewrite Hp. cbn [bind].
  assert (Hj : py_join ", " (map (fun a => py_get a "name" (VStr ""))
                                (firstn 2 (cd_addons cd))) = Raise TypeError).
  { apply py_join_bad. destruct Hbad as (a & Ha & Hs).
    exists (py_get a "name" (VStr "")). split; [|exact Hs].
    exact (in_map (fun a => py_get a "name" (VStr "")) _ _ Ha). }
  destruct Hbad as (a & Ha & _).
  destruct (cd_addons cd) as [|a0 addons]; [destruct Ha|].
  destruct resp as [|r1 resp], nc as [|n1 nc];
    [destruct Hne; congruence| | |]; rewrite Hj; reflexivity.
Qed.

Lemma summary_addon_name_type_error_witness :
  generate_coverage_summary sample_str "cancer cover"
    (extract_coverage_details sample_str
       [("addOns_OptionalBenefits", VList [VObj [("name", VNum 7);
                                                 ("isAvailable", VBool true)]])])
  = Raise TypeError.
Proof.
  apply summary_addon_name_type_error.
  - exists ("Cancer", ["cancer"; "oncology"; "chemotherapy"]).
    split; [right; left; reflexivity | vm_compute; reflexivity].
  - intros sc Hsc. vm_compute in Hsc. destruct Hsc.
  - exists [("name", VNum 7); ("isAvailable", VBool true)].
    split; [vm_compute; left; reflexivity | intros s; discriminate].
Defined.

(** *** The premium resolver: ties, the city scan and malformed zones *)

Lemma premium_not_le_num (a b : premium_match) (qa qb : Q) :
  pm_premium_amount a = VNum qa -> pm_premium_amount b = VNum qb ->
  ~ premium_le b a <-> (qa < qb)%Q.
Proof.
  intros Ha Hb. rewrite (premium_le_num _ _ _ _ Hb Ha). split.
  - apply Qnot_le_lt.
  - intros H Hle. exact (Qlt_not_le _ _ H Hle).
Qed.

Lemma py_min_from_first (best : premium_match) (rest : list premium_match) (m : premium_match) :
  (forall x, In x (best :: rest) -> exists q, pm_premium_amount x = VNum q) ->
  py_min_from best rest = Ok m ->
  exists pre post, best :: rest = (pre ++ m :: post)%list /\
    (forall x, In x pre -> ~ premium_le x m) /\
    (forall x, In x post -> premium_le m x).
Proof.
  revert best. induction rest as [|y ys IH]; intros best Hnum H.
  - injection H as <-. exists [], []. split; [reflexivity|].
    split; intros x [].
  - destruct (Hnum best (or_introl eq_refl)) as [qb Hqb].
    destruct (Hnum y (or_intror (or_introl eq_refl))) as [qy Hqy].
    cbn [py_min_from] in H. rewrite Hqy, Hqb in H. cbn [py_lt as_number bind] in H.
    destruct (Qltb qy qb) eqn:E.
    + apply Qltb_spec in E.
      destruct (IH y) as (pre & post & Heq & Hpre & Hpost);
        [intros x Hx; apply Hnum; right; exact Hx | exact H |].
      destruct (Hnum m) as [qm Hqm].
      { right. rewrite Heq. apply in_or_app. right. left. reflexivity. }
      assert (Hmy : (qm <= qy)%Q).
      { destruct pre as [|p pre].
        - injection Heq as -> _. rewrite Hqy in Hqm. injection Hqm as ->. apply Qle_refl.
        - injection Heq as -> _. apply Qlt_le_weak.
          apply (premium_not_le_num _ _ _ _ Hqm Hqy), Hpre. left. reflexivity. }
      exists (best :: pre), post. split; [rewrite Heq; reflexivity|]. split; [|exact Hpost].
      intros x [<-|Hx]; [|apply Hpre, Hx].
      apply (premium_not_le_num _ _ _ _ Hqm Hqb). apply (Qle_lt_trans _ qy); assumption.
    + assert (Hle : (qb <= qy)%Q).
      { apply Qnot_lt_le. intros Hlt. apply Qltb_spec in Hlt. congruence. }
      destruct (IH best) as (pre & post & Heq & Hpre & Hpost);
        [intros x [<-|Hx]; apply Hnum; [left; reflexivity | right; right; exact Hx]
        | exact H |].
      destruct pre as [|p pre].
      * injection Heq as <- <-. exists [], (y :: ys). split; [reflexivity|].
        split; [intros x []|]. intros x [<-|Hx]; [|apply Hpost, Hx].
        apply (premium_le_num _ _ _ _ Hqb Hqy), Hle.
      * injection Heq as Hpb Hys. subst p. destruct (Hnum m) as [qm Hqm].
        { right. right. rewrite Hys. apply in_or_app. right. left. reflexivity. }
        assert (Hmb : (qm < qb)%Q).
        { apply (premium_not_le_num _ _ _ _ Hqm Hqb), Hpre. left. reflexivity. }
        exists (best :: y :: pre), post. split; [rewrite Hys; reflexivity|].
        split; [|exact Hpost].
        intros x [<-|[<-|Hx]]; [apply Hpre; left; reflexivity| |apply Hpre; right; exact Hx].
        apply (premium_not_le_num _ _ _ _ Hqm Hqy). apply (Qlt_le_trans _ qb); assumption.
Qed.

(** X10: on a premium table of the data model, the resolved match is the
    first candidate, in table order, with the lowest premium: every
    candidate before it is strictly more expensive and none after it is
    cheaper. *)
Theorem resolver_first_cheapest (zones : list zone_rec) (user_age : Z)
    (user_city category : string) (m : premium_match)
    (H : find_applicable_premium (VList (map enc_zone zones)) user_age user_city category
         = Ok (Some m)) :
  exists pre post,
    premium_candidates zones user_age user_city category = (pre ++ m :: post)%list /\
    (forall x, In x pre -> ~ premium_le x m) /\
    (forall x, In x post -> premium_le m x).
Proof.
  rewrite find_applicable_premium_enc in H.
  destruct (premium_candidates zones user_age user_city category) as [|c cs] eqn:Hc;
    [discriminate|].
  destruct (py_min_from c cs) as [best|e] eqn:Hm; cbn [bind] in H; [|discriminate].
  injection H as <-. apply (py_min_from_first c cs best); [|exact Hm].
  intros x Hx. rewrite <- Hc in Hx. exact (premium_candidates_numeric _ _ _ _ _ Hx).
Qed.

Lemma resolver_first_cheapest_witness :
  exists m,
    find_applicable_premium (VList (map enc_zone [sample_zone; sample_zone])) 30 "Mumbai"
      "Individual" = Ok (Some m) /\
    exists pre post,
      premium_candidates [sample_zone; sample_zone] 30 "Mumbai" "Individual"
        = (pre ++ m :: post)%list /\ pre = [].
Proof.
  destruct (find_applicable_premium (VList (map enc_zone [sample_zone; sample_zone])) 30
              "Mumbai" "Individual") as [[m|]|e] eqn:H; vm_compute in H;
    try discriminate H.
  exists m. split; [reflexivity|].
  destruct (resolver_first_cheapest [sample_zone; sample_zone] 30 "Mumbai" "Individual" m H)
    as (pre & post & Heq & Hpre & _).
  exists pre, post. split; [exact Heq|].
  destruct pre as [|p pre]; [reflexivity|].
  exfalso. vm_compute in Heq. injection Heq as Hp Hrest. injection H as Hm.
  apply (Hpre p (or_introl eq_refl)). rewrite <- Hm, <- Hp. vm_compute. discriminate.
Defined.










(** *** Errors of the ranking pass *)

Lemma filter_policies_raises (user_age : Z) (user_budget : Q) (user_city category : string)
    (policies : list doc) (p : doc) :
  In p policies ->
  (exists e, find_applicable_premium (py_get p "premiums" (VList [])) user_age user_city
               category = Raise e) \/
  (exists m, find_applicable_premium (py_get p "premiums" (VList [])) user_age user_city
               category = Ok (Some m) /\ as_number (pm_premium_amount m) = None) ->
  exists e, filter_policies user_age user_budget user_city category policies = Raise e.
Proof.
  intros Hin Hbad. induction policies as [|d ds IH]; [destruct Hin|].
  cbn [filter_policies]. destruct Hin as [<-|Hin].
  - destruct Hbad as [[e He] | (m & Hm & Hq)].
    + rewrite He. exists e. reflexivity.
    + rewrite Hm. cbn [bind]. rewrite Hq. exists TypeError. reflexivity.
  - destruct (IH Hin) as [e He].
    destruct (find_applicable_premium (py_get d "premiums" (VList [])) user_age user_city
                category) as [[md|]|e'];
      cbn [bind]; [| rewrite He; exists e; reflexivity | exists e'; reflexivity].
    destruct (as_number (pm_premium_amount md)); [|exists TypeError; reflexivity].
    rewrite He. exists e. reflexivity.
Qed.

(** X13: one active policy whose premium resolution raises, or resolves to
    a premium amount that is not a number, makes the whole ranking pass
    raise, wherever it stands in the store and whatever the other policies
    are. *)
Theorem malformed_policy_aborts_pass (py_str : val -> string)
    (similarity : string -> string -> Q) (store : list doc) (user_age : Z) (user_budget : Q)
    (user_city category user_coverage_requirement : string) (top_n : Z) (p : doc)
    (Hp : In p (find_active store))
    (Hbad : (exists e, find_applicable_premium (py_get p "premiums" (VList [])) user_age
                         user_city category = Raise e) \/
            (exists m, find_applicable_premium (py_get p "premiums" (VList [])) user_age
                         user_city category = Ok (Some m) /\
                       as_number (pm_premium_amount m) = None)) :
  exists e, get_recommendations py_str similarity store user_age user_budget user_city category
              user_coverage_requirement top_n = Raise e.
Proof.
  destruct (filter_policies_raises user_age user_budget user_city category _ p Hp Hbad)
    as [e He].
  unfold get_recommendations. destruct (find_active store) as [|d ds]; [destruct Hp|].
  rewrite He. exists e. reflexivity.
Qed.

Lemma malformed_policy_aborts_pass_witness :
  exists e,
    get_recommendations sample_str sample_similarity
      [plain_policy; sample_policy "a" "alpha" 4000; null_cities_policy]
      30 10000 "Mumbai" "Individual" "" 5 = Raise e.
Proof.
  apply (malformed_policy_aborts_pass sample_str sample_similarity
           [plain_policy; sample_policy "a" "alpha" 4000; null_cities_policy]
           30 10000 "Mumbai" "Individual" "" 5 null_cities_policy).
  - vm_compute. right. right. left. reflexivity.
  - left. exists TypeError. vm_compute. reflexivity.
Defined.

Lemma display_recommendations_ok (recs : list recommendation) :
  display_recommendations recs = Ok tt <->
  (forall r, In r recs -> exists q, as_number (sum_insured r) = Some q).
Proof.
  induction recs as [|r recs IH]; [split; [intros _ x []|reflexivity]|].
  cbn [display_recommendations py_format_thousands bind]. split.
  - intros H x [->|Hx].
    + destruct (sum_insured x); try discriminate H; eexists; reflexivity.
    + destruct (sum_insured r); try discriminate H; apply IH; assumption.
  - intros H. destruct (H r (or_introl eq_refl)) as [q Hq].
    assert (Hrest : display_recommendations recs = Ok tt)
      by (apply IH; intros x Hx; apply H; right; exact Hx).
    destruct (sum_insured r); try discriminate Hq; exact Hrest.
Qed.

(** X14: [get_recommendations] returns normally exactly when scoring
    succeeds, and then it returns the ranked, truncated candidates, all of
    whose [sum_insured] values are numbers: a returned entry whose
    [sumInsured] is not a number (a string, null, a list or a dict) makes
    the [:,] format of [_display_recommendations] raise, and the whole call
    with it. *)
Theorem get_recommendations_ok_iff (py_str : val -> string)
    (similarity : string -> string -> Q) (store : list doc) (user_age : Z) (user_budget : Q)
    (user_city category user_coverage_requirement : string) (top_n : Z)
    (out : list recommendation) :
  get_recommendations py_str similarity store user_age user_budget user_city category
    user_coverage_requirement top_n = Ok out <->
  exists recs,
    scored_candidates py_str similarity store user_age user_budget user_city category
      user_coverage_requirement = Ok recs /\
    out = py_slice_to top_n (sort_recs recs) /\
    (forall r, In r out -> exists q, as_number (sum_insured r) = Some q).
Proof.
  unfold get_recommendations, scored_candidates.
  destruct (find_active store) as [|d ds].
  - split.
    + intros H. injection H as <-. exists []. split; [reflexivity|].
      split; [symmetry; apply py_slice_to_nil | intros r []].
    + intros (recs & Hrecs & -> & _). injection Hrecs as <-.
      cbn [sort_recs]. rewrite py_slice_to_nil. reflexivity.
  - destruct (filter_policies user_age user_budget user_city category (d :: ds))
      as [filtered|e]; cbn [bind];
      [| split; [discriminate | intros (recs & Hrecs & _); discriminate]].
    destruct filtered as [|f fs].
    + split.
      * intros H. injection H as <-. exists []. split; [reflexivity|].
        split; [symmetry; apply py_slice_to_nil | intros r []].
      * intros (recs & Hrecs & -> & _). injection Hrecs as <-.
        cbn [sort_recs]. rewrite py_slice_to_nil. reflexivity.
    + destruct (score_all py_str similarity user_coverage_requirement (f :: fs))
        as [recs|e]; cbn [bind];
        [| split; [discriminate | intros (recs & Hrecs & _); discriminate]].
      split.
      * destruct (display_recommendations (py_slice_to top_n (sort_recs recs)))
          as [[]|e] eqn:Hd; cbn [bind]; [|discriminate].
        intros H. injection H as <-. exists recs. split; [reflexivity|].
        split; [reflexivity|]. apply display_recommendations_ok, Hd.
      * intros (recs' & Hrecs & -> & Hnum). injection Hrecs as <-.
        apply display_recommendations_ok in Hnum. rewrite Hnum. reflexivity.
Qed.

(** X15: a negative [top_n], which the request model accepts, keeps the
    ranked list minus its last [|top_n|] entries (none when [|top_n|] is at
    least the number of candidates), as Python's [recommendations[:top_n]]
    does. *)
Theorem negative_top_n_drops_last (py_str : val -> string)
    (similarity : string -> string -> Q) (store : list doc) (user_age : Z) (user_budget : Q)
    (user_city category user_coverage_requirement : string) (top_n : Z)
    (out : list recommendation)
    (Hneg : (top_n < 0)%Z)
    (H : get_recommendations py_str similarity store user_age user_budget user_city category
           user_coverage_requirement top_n = Ok out) :
  exists recs dropped,
    scored_candidates py_str similarity store user_age user_budget user_city category
      user_coverage_requirement = Ok recs /\
    (out ++ dropped)%list = sort_recs recs /\
    length dropped = Nat.min (Z.to_nat (- top_n)) (length recs).
Proof.
  destruct (get_recommendations_shape _ _ _ _ _ _ _ _ _ _ H) as [recs [Hrecs Hout]].
  unfold py_slice_to in Hout. destruct (Z.leb_spec 0 top_n) as [|_]; [lia|].
  set (k := Z.to_nat (Z.of_nat (length (sort_recs recs)) + top_n)) in Hout.
  exists recs, (skipn k (sort_recs recs)). split; [exact Hrecs|]. split.
  - rewrite Hout. apply firstn_skipn.
  - rewrite length_skipn. unfold k.
    rewrite (Permutation_length (sort_recs_perm recs)). lia.
Qed.

Lemma negative_top_n_drops_last_witness :
  exists out,
    get_recommendations sample_str sample_similarity
      [sample_policy "a" "alpha" 4000; sample_policy "b" "beta" 5000]
      30 10000 "Mumbai" "Individual" "" (-1) = Ok out /\
    exists recs dropped, (out ++ dropped)%list = sort_recs recs /\ length dropped = 1%nat.
Proof.
  destruct (get_recommendations sample_str sample_similarity
      [sample_policy "a" "alpha" 4000; sample_policy "b" "beta" 5000]
      30 10000 "Mumbai" "Individual" "" (-1)) as [out|e] eqn:H;
    [|vm_compute in H; discriminate].
  destruct (negative_top_n_drops_last sample_str sample_similarity
      [sample_policy "a" "alpha" 4000; sample_policy "b" "beta" 5000]
      30 10000 "Mumbai" "Individual" "" (-1) out ltac:(lia) H)
    as (recs & dropped & Hrecs & Happ & Hlen).
  exists out. split; [reflexivity|]. exists recs, dropped. split; [exact Happ|].
  rewrite Hlen. vm_compute in Hrecs. injection Hrecs as <-. reflexivity.
Defined.

(** *** Blanks in age brackets *)

Lemma string_app_assoc (a b c : string) : a ++ (b ++ c) = (a ++ b) ++ c.
Proof. induction a as [|x a IH]; cbn; [reflexivity | rewrite IH; reflexivity]. Qed.

Lemma drop_spaces_blank (w l : list ascii) :
  forallb is_py_space w = true -> drop_spaces (w ++ l) = drop_spaces l.
Proof.
  induction w as [|c w IH]; intros H; [reflexivity|].
  cbn [forallb] in H. apply andb_true_iff in H as [Hc H].
  cbn [app drop_spaces]. rewrite Hc. exact (IH H).
Qed.

Lemma drop_spaces_digit_head (l t : list ascii) :
  forallb is_digit l = true -> l <> [] -> drop_spaces (l ++ t) = (l ++ t)%list.
Proof.
  destruct l as [|c l]; intros H Hne; [congruence|].
  cbn [forallb] in H. apply andb_true_iff in H as [Hc _].
  cbn [app drop_spaces]. rewrite (digit_not_space c Hc). reflexivity.
Qed.

Lemma strip_blank_numeral (w1 n w2 : string) :
  is_blank w1 = true -> is_numeral n -> is_blank w2 = true -> strip (w1 ++ n ++ w2) = n.
Proof.
  intros H1 [Hne Hn] H2. unfold strip, is_blank in *.
  rewrite !list_ascii_app, (drop_spaces_blank _ _ H1).
  assert (Hne' : list_ascii_of_string n <> []) by (destruct n; [congruence | discriminate]).
  rewrite (drop_spaces_digit_head _ _ Hn Hne'), rev_app_distr.
  rewrite (drop_spaces_blank _ _ (eq_trans (forallb_rev _ _) H2)).
  rewrite drop_spaces_digits by (rewrite forallb_rev; exact Hn).
  rewrite rev_involutive. apply string_of_list_ascii_of_string.
Qed.

Lemma blank_avoid (c : ascii) (w : string) :
  is_py_space c = false -> is_blank w = true ->
  forallb (fun d => negb (Ascii.eqb d c)) (list_ascii_of_string w) = true.
Proof.
  intros Hc. unfold is_blank. induction (list_ascii_of_string w) as [|d l IH];
    intros H; [reflexivity|].
  cbn [forallb] in H |- *. apply andb_true_iff in H as [Hd H].
  rewrite (IH H), andb_true_r. destruct (Ascii.eqb_spec d c) as [->|]; [congruence|].
  reflexivity.
Qed.

Lemma blank_app (a b : string) :
  is_blank a = true -> is_blank b = true -> is_blank (a ++ b) = true.
Proof.
  unfold is_blank. intros Ha Hb. rewrite list_ascii_app, forallb_app, Ha, Hb. reflexivity.
Qed.

Lemma avoid_app (c : ascii) (a b : string) :
  forallb (fun d => negb (Ascii.eqb d c)) (list_ascii_of_string a) = true ->
  forallb (fun d => negb (Ascii.eqb d c)) (list_ascii_of_string b) = true ->
  forallb (fun d => negb (Ascii.eqb d c)) (list_ascii_of_string (a ++ b)) = true.
Proof. intros Ha Hb. rewrite list_ascii_app, forallb_app, Ha, Hb. reflexivity. Qed.

(** X16: [parse_age_bracket] accepts whitespace around the numbers:
    ["A-B"] with blanks before and after [A] and [B] parses as [(A, B)],
    and ["N+"] with blanks around [N] and after the [+] as [(N, 999)]. *)
Theorem age_bracket_blanks (w1 a w2 w3 b w4 : string)
    (H1 : is_blank w1 = true) (H2 : is_blank w2 = true)
    (H3 : is_blank w3 = true) (H4 : is_blank w4 = true)
    (Ha : is_numeral a) (Hb : is_numeral b) :
  parse_age_bracket (w1 ++ a ++ w2 ++ "-" ++ w3 ++ b ++ w4)
    = Some (numeral_value a, numeral_value b) /\
  parse_age_bracket (w1 ++ a ++ w2 ++ "+" ++ w3) = Some (numeral_value a, 999%Z).
Proof.
  assert (Hsp : forall c, is_digit c = false -> is_py_space c = false -> forall x,
             is_blank x = true \/ is_numeral x ->
             forallb (fun d => negb (Ascii.eqb d c)) (list_ascii_of_string x) = true).
  { intros c Hd Hs x [Hx|Hx]; [exact (blank_avoid c x Hs Hx) | exact (numeral_avoid c x Hd Hx)]. }
  assert (Hl : forall c, is_digit c = false -> is_py_space c = false ->
            forallb (fun d => negb (Ascii.eqb d c)) (list_ascii_of_string (w1 ++ a ++ w2)) = true
            /\ forallb (fun d => negb (Ascii.eqb d c)) (list_ascii_of_string (w3 ++ b ++ w4))
               = true).
  { intros c Hd Hs. split; repeat apply avoid_app; apply (Hsp c Hd Hs); auto. }
  split.
  - unfold parse_age_bracket.
    replace (w1 ++ a ++ w2 ++ "-" ++ w3 ++ b ++ w4)
      with ((w1 ++ a ++ w2) ++ String "-"%char (w3 ++ b ++ w4))
      by (rewrite <- !string_app_assoc; reflexivity).
    destruct (Hl "+"%char eq_refl eq_refl) as [Hp1 Hp2].
    rewrite py_in_char_absent by (apply avoid_app; [exact Hp1 | cbn; exact Hp2]).
    rewrite py_in_app_mono by (apply py_in_prefix; destruct (w3 ++ b ++ w4); reflexivity).
    destruct (Hl "-"%char eq_refl eq_refl) as [Hm1 Hm2].
    rewrite (split_char_two "-" _ _ Hm1 Hm2). cbn [nth].
    rewrite (strip_blank_numeral _ _ _ H1 Ha H2), (strip_blank_numeral _ _ _ H3 Hb H4).
    rewrite (py_int_numeral a Ha), (py_int_numeral b Hb). reflexivity.
  - unfold parse_age_bracket.
    replace (w1 ++ a ++ w2 ++ "+" ++ w3) with ((w1 ++ a ++ w2) ++ String "+"%char w3)
      by (rewrite <- !string_app_assoc; reflexivity).
    rewrite py_in_app_mono by (apply py_in_prefix; destruct w3; reflexivity).
    destruct (Hl "+"%char eq_refl eq_refl) as [Hp1 _].
    rewrite remove_char_app, (remove_char_absent _ _ Hp1). cbn [remove_char].
    rewrite Ascii.eqb_refl, (remove_char_absent _ _ (blank_avoid "+" w3 eq_refl H3)).
    rewrite <- !string_app_assoc.
    rewrite (strip_blank_numeral _ _ _ H1 Ha (blank_app _ _ H2 H3)).
    rewrite (py_int_numeral a Ha). reflexivity.
Qed.

Lemma age_bracket_blanks_witness :
  parse_age_bracket (" " ++ "18" ++ " " ++ "-" ++ " " ++ "35" ++ "") = Some (18%Z, 35%Z).
Proof.
  assert (H18 : is_numeral "18") by (split; [discriminate | reflexivity]).
  assert (H35 : is_numeral "35") by (split; [discriminate | reflexivity]).
  exact (proj1 (age_bracket_blanks " " "18" " " " " "35" "" eq_refl eq_refl eq_refl eq_refl
                  H18 H35)).
Defined.

(** *** What the summary names *)

Lemma py_in_join_mem (sep x : string) (l : list string) :
  In x l -> py_in x (join sep l) = true.
Proof.
  induction l as [|p l IH]; intros H; [destruct H|].
  destruct l as [|q l].
  - destruct H as [<-|[]]. apply py_in_prefix, prefix_refl.
  - destruct H as [<-|H].
    + apply py_in_prefix, prefix_app.
    + change (join sep (p :: q :: l)) with (p ++ sep ++ join sep (q :: l)).
      apply py_in_app_mono, py_in_app_mono, IH, H.
Qed.

Lemma summary_checks_uncovered (py_str : val -> string) (ul tl : string) (specials : list doc)
    (checks : list (string * list string)) (resp nc : list string)
    (c : string * list string) :
  summary_checks py_str ul tl specials checks = Ok (resp, nc) ->
  In c checks -> any_in (snd c) ul = true -> any_in (snd c) tl = false ->
  In (fst c) nc.
Proof.
  revert resp nc. induction checks as [|[name kws] checks IH];
    intros resp nc H Hc Hu Ht; [destruct Hc|].
  cbn [summary_checks] in H. destruct Hc as [<-|Hc].
  - cbn [fst snd] in *. rewrite Hu, Ht in H.
    destruct (summary_checks py_str ul tl specials checks) as [[r n]|e];
      cbn [bind] in H; [|discriminate].
    injection H as <- <-. left. reflexivity.
  - destruct (any_in kws ul); [destruct (any_in kws tl)|].
    + destruct (find_details kws specials); cbn [bind] in H; [|discriminate].
      destruct (summary_checks py_str ul tl specials checks) as [[r n]|e] eqn:Hr;
        cbn [bind] in H; [|discriminate].
      injection H as <- <-. exact (IH r n eq_refl Hc Hu Ht).
    + destruct (summary_checks py_str ul tl specials checks) as [[r n]|e] eqn:Hr;
        cbn [bind] in H; [|discriminate].
      injection H as <- <-. right. exact (IH r n eq_refl Hc Hu Ht).
    + exact (IH resp nc H Hc Hu Ht).
Qed.

Lemma py_in_cons (sub : string) (a : ascii) (s : string) :
  py_in sub s = true -> py_in sub (String a s) = true.
Proof. intros H. rewrite py_in_eq, H. apply orb_true_r. Qed.

Lemma ok_inj {A : Type} (a b : A) : Ok a = Ok b -> a = b.
Proof. intros H. injection H. trivial. Qed.

Ltac py_in_search :=
  first [ apply py_in_prefix, prefix_app
        | apply py_in_cons; py_in_search
        | apply py_in_join_mem; assumption
        | apply py_in_app_mono; py_in_search
        | apply py_in_app_mono_r; py_in_search ].

(** X17: every coverage check the user asks for (a trigger word in the
    user text) that the policy text does not mention is named in the
    summary, in its "is not covered" / "are not covered" sentence. *)
Theorem summary_names_uncovered (py_str : val -> string) (user_requirement : string)
    (cd : coverage_data) (c : string * list string) (summary : string)
    (Hc : In c coverage_checks)
    (Hu : any_in (snd c) (lower user_requirement) = true)
    (Ht : any_in (snd c) (lower (cd_text cd)) = false)
    (H : generate_coverage_summary py_str user_requirement cd = Ok summary) :
  py_in (fst c) summary = true.
Proof.
  unfold generate_coverage_summary in H.
  destruct (summary_checks py_str (lower user_requirement) (lower (cd_text cd))
              (cd_special_coverages cd) coverage_checks) as [[resp nc]|e] eqn:Hp;
    cbn [bind] in H; [|discriminate].
  pose proof (summary_checks_uncovered _ _ _ _ _ _ _ _ Hp Hc Hu Ht) as Hin.
  destruct nc as [|x nc]; [destruct Hin|].
  assert (Hpos : In (fst c) (removelast (x :: nc)) \/ fst c = last (x :: nc) "").
  { rewrite (app_removelast_last "" (l := x :: nc) ltac:(discriminate)) in Hin.
    apply in_app_or in Hin as [Hin|[Hin|[]]]; [left; exact Hin | right; symmetry; exact Hin]. }
  destruct resp as [|r1 resp], nc as [|y nc];
    destruct (cd_addons cd) as [|a addons];
    try (destruct (py_join _ _) as [j|e]; cbn [bind] in H; [|discriminate]);
    apply ok_inj in H; subst summary;
    try (destruct Hin as [<-|[]]; py_in_search);
    (destruct Hpos as [Hpos|Hpos]; [py_in_search | rewrite Hpos; py_in_search]).
Qed.

Lemma summary_names_uncovered_witness :
  exists summary,
    generate_coverage_summary sample_str "maternity and cancer please"
      (extract_coverage_details sample_str (sample_policy "a" "oncology ward" 4000))
    = Ok summary /\ py_in "Maternity" summary = true.
Proof.
  destruct (generate_coverage_summary sample_str "maternity and cancer please"
      (extract_coverage_details sample_str (sample_policy "a" "oncology ward" 4000)))
    as [summary|e] eqn:H; [|vm_compute in H; discriminate].
  exists summary. split; [reflexivity|].
  exact (summary_names_uncovered sample_str "maternity and cancer please"
           (extract_coverage_details sample_str (sample_policy "a" "oncology ward" 4000))
           ("Maternity", ["maternity"; "pregnancy"]) summary
           ltac:(right; right; right; left; reflexivity)
           ltac:(vm_compute; reflexivity) ltac:(vm_compute; reflexivity) H).
Defined.

(** *** [convert_numpy_types] *)

Section PyobjInd.
Variable P : pyobj -> Prop.
Hypothesis HNull : P PNull.
Hypothesis HBool : forall b, P (PBool b).
Hypothesis HNum : forall q, P (PNum q).
Hypothesis HStr : forall s, P (PStr s).
Hypothesis HList : forall xs, Forall P xs -> P (PList xs).
Hypothesis HDict : forall kvs, Forall (fun kv => P (snd kv)) kvs -> P (PDict kvs).
Hypothesis HGeneric : forall x, P (PGeneric x).
Hypothesis HArray : forall a, P (PArray a).

Fixpoint pyobj_ind' (o : pyobj) : P o :=
  match o with
  | PNull => HNull
  | PBool b => HBool b
  | PNum q => HNum q
  | PStr s => HStr s
  | PList xs =>
      HList xs ((fix go (xs : list pyobj) : Forall P xs :=
                   match xs with
                   | [] => Forall_nil _
                   | x :: xs => Forall_cons _ (pyobj_ind' x) (go xs)
                   end) xs)
  | PDict kvs =>
      HDict kvs ((fix go (kvs : list (string * pyobj)) : Forall (fun kv => P (snd kv)) kvs :=
                    match kvs with
                    | [] => Forall_nil _
                    | kv :: kvs => Forall_cons _ (pyobj_ind' (snd kv)) (go kvs)
                    end) kvs)
  | PGeneric x => HGeneric x
  | PArray a => HArray a
  end.
End PyobjInd.




Lemma convert_native_id (o : pyobj) : numpy_free o = true -> convert_numpy_types o = o.
Proof.
  induction o using pyobj_ind'; intros Hf; try reflexivity; try discriminate.
  - cbn [convert_numpy_types]. f_equal. cbn [numpy_free] in Hf.
    induction H as [|x xs Hx _ IH]; [reflexivity|].
    cbn [forallb] in Hf. apply andb_prop in Hf as [H1 H2].
    cbn [map]. rewrite (Hx H1), (IH H2). reflexivity.
  - cbn [convert_numpy_types]. f_equal. cbn [numpy_free] in Hf.
    induction H as [|[k v] kvs Hkv _ IH]; [reflexivity|].
    cbn [forallb snd] in Hf, Hkv. apply andb_prop in Hf as [H1 H2].
    cbn [map fst snd]. rewrite (Hkv H1), (IH H2). reflexivity.
Qed.


(** X19: on a value with no NumPy scalar or array inside it (plain
    JSON-like data), [convert_numpy_types] returns the value unchanged. *)
Theorem convert_numpy_types_native (obj : pyobj) (H : numpy_free obj = true) :
  convert_numpy_types obj = obj.
Proof. exact (convert_native_id obj H). Qed.

Lemma convert_numpy_types_native_witness :
  numpy_free (PDict [("policy_id", PStr "p1"); ("scores", PList [PNum (1#2); PNull])]) = true /\
  convert_numpy_types (PDict [("policy_id", PStr "p1"); ("scores", PList [PNum (1#2); PNull])])
  = PDict [("policy_id", PStr "p1"); ("scores", PList [PNum (1#2); PNull])].
Proof.
  split; [reflexivity|].
  apply convert_numpy_types_native. reflexivity.
Defined.
